(** * dailyLimit.watcher: the limit-up watcher of efinance

    A shallow embedding of [src/dailyLimit/watcher.py]: the per-stock record
    [StockQuoteInfo], the body of [Strategy.next] (the tracker that classifies
    a snapshot and the filter chain that decides whether to notify) and the
    driver loop [start].

    Conventions of the embedding.
    - A Python [float] is a binary64 number: Rocq's primitive [float], with
      the same rounding, the same NaN and the same comparisons.
    - A naive [datetime] is the number of microseconds since a midnight, a
      [timedelta] the (signed) number of microseconds; [timedelta.seconds] is
      the seconds field of the normalised (days, seconds, microseconds).
    - Exceptions are values of [exn]; code that can raise lives in [result],
      code that also mutates the strategy or prints lives in the monad [M].
    - The quote provider, the snapshot fetches, the clock and the stop flag
      are inputs of a cycle ([Cycle]). *)

From Stdlib Require Import ZArith Floats Bool List Lia.
From stdpp Require Import base option list gmap strings.
Import ListNotations.

Set Warnings "-inexact-float".
Local Open Scope Z_scope.

(** ** Python values *)

Inductive exn : Type :=
  | KeyError (key : string)
  | TypeError
  | ZeroDivisionError.

Inductive result (A : Type) : Type :=
  | Ok (a : A)
  | Raise (e : exn).
Arguments Ok {A} a.
Arguments Raise {A} e.

Definition rbind {A B : Type} (r : result A) (k : A -> result B) : result B :=
  match r with
  | Ok a => k a
  | Raise e => Raise e
  end.

Declare Scope py_scope.
Delimit Scope py_scope with py.
Notation "'let*' x ':=' r 'in' k" := (rbind r (fun x => k))
  (at level 10, x name, r at level 100, k at level 200) : py_scope.
Local Open Scope py_scope.

Module PyFloat.

Definition lt (x y : float) : bool := PrimFloat.ltb x y.
Definition gt (x y : float) : bool := PrimFloat.ltb y x.
Definition le (x y : float) : bool := PrimFloat.leb x y.
Definition eq (x y : float) : bool := PrimFloat.eqb x y.

(** [x / y] on floats raises when the divisor is zero (of either sign). *)
Definition truediv (x y : float) : result float :=
  if PrimFloat.eqb y 0%float then Raise ZeroDivisionError
  else Ok (PrimFloat.div x y).

Definition is_nan (x : float) : Prop := Prim2SF x = S754_nan.

End PyFloat.

Definition datetime : Type := Z.
Definition timedelta : Type := Z.

(** [a - b] on datetimes, and the [seconds] attribute of a timedelta:
    0 <= seconds < 86400, days and microseconds are the other two fields. *)
Definition dt_sub (a b : datetime) : timedelta := a - b.
Definition td_seconds (d : timedelta) : Z := (d mod 86400000000) / 1000000.

(** ** The record kept per stock (class StockQuoteInfo) *)

Record StockQuoteInfo : Type := mkInfo {
  stock_code : string;
  stock_name : string;
  dt : datetime;
  price : float;
  top_price : float;
  bottom_price : float;
  latest_zt_dt : option datetime;   (* None until the first limit-up *)
  latest_nzt_dt : datetime;
  total_market_value : float;
  circulating_market_value : float;
  turnover_rate : float;
  trading_volume : float;
  trading_amount : float;
  sell_1_price : float;
  buy_1_price : float;
  sell_1_count : float;
  buy_1_count : float
}.

(** The property [zt_keep_seconds]:
    [(self.latest_zt_dt - self.latest_nzt_dt).seconds]. Subtracting a
    datetime from [None] is a TypeError. *)
Definition zt_keep_seconds (self : StockQuoteInfo) : result Z :=
  match latest_zt_dt self with
  | None => Raise TypeError
  | Some zt => Ok (td_seconds (dt_sub zt (latest_nzt_dt self)))
  end.

Definition set_latest_zt_dt (self : StockQuoteInfo) (d : datetime) : StockQuoteInfo :=
  mkInfo (stock_code self) (stock_name self) (dt self) (price self)
    (top_price self) (bottom_price self) (Some d) (latest_nzt_dt self)
    (total_market_value self) (circulating_market_value self)
    (turnover_rate self) (trading_volume self) (trading_amount self)
    (sell_1_price self) (buy_1_price self) (sell_1_count self) (buy_1_count self).

Definition set_latest_nzt_dt (self : StockQuoteInfo) (d : datetime) : StockQuoteInfo :=
  mkInfo (stock_code self) (stock_name self) (dt self) (price self)
    (top_price self) (bottom_price self) (latest_zt_dt self) d
    (total_market_value self) (circulating_market_value self)
    (turnover_rate self) (trading_volume self) (trading_amount self)
    (sell_1_price self) (buy_1_price self) (sell_1_count self) (buy_1_count self).

Definition set_price (self : StockQuoteInfo) (p : float) : StockQuoteInfo :=
  mkInfo (stock_code self) (stock_name self) (dt self) p
    (top_price self) (bottom_price self) (latest_zt_dt self) (latest_nzt_dt self)
    (total_market_value self) (circulating_market_value self)
    (turnover_rate self) (trading_volume self) (trading_amount self)
    (sell_1_price self) (buy_1_price self) (sell_1_count self) (buy_1_count self).

Definition set_dt (self : StockQuoteInfo) (d : datetime) : StockQuoteInfo :=
  mkInfo (stock_code self) (stock_name self) d (price self)
    (top_price self) (bottom_price self) (latest_zt_dt self) (latest_nzt_dt self)
    (total_market_value self) (circulating_market_value self)
    (turnover_rate self) (trading_volume self) (trading_amount self)
    (sell_1_price self) (buy_1_price self) (sell_1_count self) (buy_1_count self).

(** ** What the quote provider returns *)

(** A cell of the change column: the provider writes '-' for a missing value. *)
Inductive cell : Type :=
  | Dash
  | Num (x : float).

(** A row of [ef.stock.get_realtime_quotes]. *)
Record Row : Type := mkRow {
  row_stock_code : string;
  row_stock_name : string;
  row_change : cell;
  row_total_market_value : float;
  row_circulating_market_value : float
}.

(** The series of [ef.stock.get_quote_snapshot]. *)
Record Snapshot : Type := mkSnapshot {
  sn_top_price : float;
  sn_bottom_price : float;
  sn_price : float;
  sn_turnover_rate : float;
  sn_trading_volume : float;
  sn_trading_amount : float;
  sn_sell_1_price : float;
  sn_buy_1_price : float;
  sn_sell_1_count : float;
  sn_buy_1_count : float;
  sn_buy_2_count : float;
  sn_buy_3_count : float;
  sn_buy_4_count : float;
  sn_buy_5_count : float
}.

(** ** Module constants *)

Definition TEST_MODE : bool := true.

Inductive Tip : Type :=
  | ZT_TIP         (* just hit the limit *)
  | ZT_KEEP_TIP    (* holding the limit *)
  | ZT_BREAK_TIP.  (* the limit broke *)

Definition Tip_eqb (a b : Tip) : bool :=
  match a, b with
  | ZT_TIP, ZT_TIP | ZT_KEEP_TIP, ZT_KEEP_TIP | ZT_BREAK_TIP, ZT_BREAK_TIP => true
  | _, _ => false
  end.

(** [tip == T] for a [tip] that starts as [None]. *)
Definition tip_is (tip : option Tip) (t : Tip) : bool :=
  match tip with
  | Some a => Tip_eqb a t
  | None => false
  end.

Definition ZT_NOTICE_MAX_SECONDS : Z := 33.

(** ** The tracker: lines 142-190 of Strategy.next *)

(** [abs(top_price - current_price) <= 1e-2] *)
Definition at_limit (top current : float) : bool :=
  PyFloat.le (PrimFloat.abs (PrimFloat.sub top current)) 0.01%float.

(** The record built on the first sighting of a stock. *)
Definition new_info (now : datetime) (row : Row) (sn : Snapshot) : StockQuoteInfo :=
  {| stock_code := row_stock_code row;
     stock_name := row_stock_name row;
     dt := now;
     price := sn_price sn;
     top_price := sn_top_price sn;
     bottom_price := sn_bottom_price sn;
     latest_nzt_dt := now;
     latest_zt_dt := None;
     total_market_value := row_total_market_value row;
     circulating_market_value := row_circulating_market_value row;
     turnover_rate := sn_turnover_rate sn;
     trading_volume := sn_trading_volume sn;
     trading_amount := sn_trading_amount sn;
     sell_1_price := sn_sell_1_price sn;
     buy_1_price := sn_buy_1_price sn;
     sell_1_count := sn_sell_1_count sn;
     buy_1_count := sn_buy_1_count sn |}.

(** The branch on the limit: the tip and the time stamp it writes. *)
Definition classify (now : datetime) (first : bool) (top current : float)
    (pre_info : StockQuoteInfo) : option Tip * StockQuoteInfo :=
  if at_limit top current then
    if first || PyFloat.gt current (price pre_info) then
      (Some ZT_TIP, set_latest_zt_dt pre_info now)
    else if PyFloat.eq current (price pre_info) then
      (Some ZT_KEEP_TIP, set_latest_zt_dt pre_info now)
    else
      (Some ZT_BREAK_TIP, set_latest_nzt_dt pre_info now)
  else
    (None, set_latest_nzt_dt pre_info now).

(** One sighting of a stock: [pre] is [self.stock_code_info.get(stock_code)].
    Returns the tip and the record as it stands after [pre_info.dt = dt]. *)
Definition track (now : datetime) (row : Row) (sn : Snapshot)
    (pre : option StockQuoteInfo) : option Tip * StockQuoteInfo :=
  let top := sn_top_price sn in
  let current := sn_price sn in
  let first := match pre with None => true | Some _ => false end in
  let pre_info := match pre with None => new_info now row sn | Some i => i end in
  let '(tip, pre_info) := classify now first top current pre_info in
  let pre_info := set_price pre_info current in
  let pre_info := set_dt pre_info now in
  (tip, pre_info).

(** ** The filter chain: lines 195-222 of Strategy.next *)

(** The rendered message, field by field as the f-string reads them. *)
Record Msg : Type := mkMsg {
  msg_stock_code : string;
  msg_stock_name : string;
  msg_total_market_value : float;
  msg_turnover_rate : float;
  msg_trading_volume : float;
  msg_trading_amount : float;
  msg_price : float;
  msg_buy_list : list (Z * float);
  msg_tip : option Tip;
  msg_zt_keep_seconds : Z;
  msg_dt : datetime
}.

(** [buy_list]: the sizes of the five bid levels of the current snapshot. *)
Definition buy_list (sn : Snapshot) : list (Z * float) :=
  [ (1, sn_buy_1_count sn); (2, sn_buy_2_count sn); (3, sn_buy_3_count sn);
    (4, sn_buy_4_count sn); (5, sn_buy_5_count sn) ].

(** [tip == ZT_TIP or (tip == ZT_KEEP_TIP and
     pre_info.zt_keep_seconds <= ZT_NOTICE_MAX_SECONDS)]; [or] and [and] are
    lazy, so the property is read only for a holding tip. *)
Definition trigger (tip : option Tip) (pre_info : StockQuoteInfo) : result bool :=
  if tip_is tip ZT_TIP then Ok true
  else if tip_is tip ZT_KEEP_TIP then
    let* k := zt_keep_seconds pre_info in
    Ok (k <=? ZT_NOTICE_MAX_SECONDS)
  else Ok false.

(** The f-string of the message: the record's fields, the bid sizes of the
    current snapshot, the tip, the hold time and the clock time. *)
Definition render (now : datetime) (row : Row) (sn : Snapshot)
    (tip : option Tip) (pre_info : StockQuoteInfo) (keep : Z) : Msg :=
  {| msg_stock_code := row_stock_code row;
     msg_stock_name := row_stock_name row;
     msg_total_market_value := total_market_value pre_info;
     msg_turnover_rate := turnover_rate pre_info;
     msg_trading_volume := trading_volume pre_info;
     msg_trading_amount := trading_amount pre_info;
     msg_price := price pre_info;
     msg_buy_list := buy_list sn;
     msg_tip := tip;
     msg_zt_keep_seconds := keep;
     msg_dt := now |}.

(** The body of the [if]: each [continue] is [Ok None]. *)
Definition rule_chain (now : datetime) (row : Row) (sn : Snapshot)
    (tip : option Tip) (pre_info : StockQuoteInfo) : result (option Msg) :=
  if PyFloat.lt (total_market_value pre_info) 1000000000%float
     || PyFloat.gt (total_market_value pre_info) 100000000000%float
  then Ok None else
  if PyFloat.lt (price pre_info) 3%float || PyFloat.gt (price pre_info) 20%float
  then Ok None else
  if PyFloat.lt (turnover_rate pre_info) 5%float
     || PyFloat.gt (turnover_rate pre_info) 15%float
  then Ok None else
  let* p := PyFloat.truediv (trading_amount pre_info) (total_market_value pre_info) in
  if PyFloat.lt p 0.05%float || PyFloat.gt p 0.15%float then Ok None else
  let* q := PyFloat.truediv
              (PrimFloat.mul (PrimFloat.mul (buy_1_count pre_info) 100%float)
                             (buy_1_price pre_info))
              (total_market_value pre_info) in
  if PyFloat.lt q 0.005%float then Ok None else
  let* k := zt_keep_seconds pre_info in
  if k <? 30 then Ok None else
  let* k' := zt_keep_seconds pre_info in
  Ok (Some (render now row sn tip pre_info k')).

(** The notification decision for one row: [Some msg] when a message is
    sent, [None] when the row is passed over. *)
Definition notice (now : datetime) (row : Row) (sn : Snapshot)
    (tip : option Tip) (pre_info : StockQuoteInfo) : result (option Msg) :=
  let* go := trigger tip pre_info in
  if go then rule_chain now row sn tip pre_info else Ok None.

(** ** The strategy object and the console *)

Inductive Event : Type :=
  | SendText (m : Msg)        (* notify.send_text(msg) *)
  | RichPrint (m : Msg)       (* rich.print(msg) *)
  | Refresh (now : datetime)  (* the line printed at each cycle *)
  | MonitorEnd.               (* the line printed when the loop ends *)

Record World : Type := mkWorld {
  stock_code_info : gmap string StockQuoteInfo;
  console : list Event
}.

(** State and exceptions: a computation returns a value or raises, and in
    both cases leaves the world as it was at that point. *)
Definition M (A : Type) : Type := World -> result A * World.

Definition ret {A : Type} (a : A) : M A := fun w => (Ok a, w).

Definition bind {A B : Type} (m : M A) (k : A -> M B) : M B :=
  fun w =>
    match m w with
    | (Ok a, w') => k a w'
    | (Raise e, w') => (Raise e, w')
    end.

Definition lift {A : Type} (r : result A) : M A := fun w => (r, w).

Notation "'do' x '<-' m ';' k" := (bind m (fun x => k))
  (at level 10, x name, m at level 100, k at level 200) : py_scope.

Definition get_info (code : string) : M (option StockQuoteInfo) :=
  fun w => (Ok (stock_code_info w !! code), w).

Definition put_info (code : string) (i : StockQuoteInfo) : M unit :=
  fun w => (Ok tt, mkWorld (<[code := i]> (stock_code_info w)) (console w)).

Definition emit (evs : list Event) : M unit :=
  fun w => (Ok tt, mkWorld (stock_code_info w) (console w ++ evs)).

(** [sns[stock_code]] *)
Definition getitem (sns : gmap string Snapshot) (code : string) : result Snapshot :=
  match sns !! code with
  | Some sn => Ok sn
  | None => Raise (KeyError code)
  end.

(** The body of the [for] loop of Strategy.next. The record read from the
    dictionary is the object the loop mutates, so the dictionary holds the
    tracker's writes before the filter chain runs. *)
Definition next_row (now : datetime) (sns : gmap string Snapshot) (row : Row) : M unit :=
  let code := row_stock_code row in
  do sn <- lift (getitem sns code);
  do pre <- get_info code;
  let '(tip, pre_info) := track now row sn pre in
  do _ <- put_info code pre_info;
  do decision <- lift (notice now row sn tip pre_info);
  match decision with
  | Some msg => emit [SendText msg; RichPrint msg]
  | None => ret tt
  end.

Fixpoint for_each {A : Type} (body : A -> M unit) (l : list A) : M unit :=
  match l with
  | [] => ret tt
  | x :: l' => do _ <- body x; for_each body l'
  end.

(** [quotes[quotes[change] != '-']] then [quotes[quotes[change] > 8]] *)
Definition is_candidate (row : Row) : bool :=
  match row_change row with
  | Dash => false
  | Num x => PyFloat.gt x 8%float
  end.

Definition candidates (quotes : list Row) : list Row := filter is_candidate quotes.

(** [get_snapshot_fast]: one task per code; a task whose fetch raises leaves
    no entry. [fetch] gives the snapshot the provider returns for a code, if
    it returns one. *)
Definition get_snapshot_fast (fetch : gmap string Snapshot)
    (stock_codes : list string) : gmap string Snapshot :=
  foldl (fun sns code =>
           match fetch !! code with
           | Some sn => <[code := sn]> sns
           | None => sns
           end) ∅ stock_codes.

(** Strategy.next, at clock time [now]. *)
Definition next (now : datetime) (quotes : list Row)
    (fetch : gmap string Snapshot) : M unit :=
  let quotes := candidates quotes in
  if (length quotes =? 0)%nat then ret tt
  else
    let sns := get_snapshot_fast fetch (map row_stock_code quotes) in
    for_each (next_row now sns) quotes.

(** ** The driver *)

(** What the outside supplies to one turn of the loop of [start]: the
    running flag as the loop test reads it, the time [datetime.now()] gives
    to [clock.next()], the quotes and the snapshot fetches. *)
Record Cycle : Type := mkCycle {
  cy_running : bool;
  cy_now : datetime;
  cy_quotes : list Row;
  cy_fetch : gmap string Snapshot
}.

(** Clock.next: whether the time of day, printed as HH:MM:SS, lies between
    09:15:00 and 15:00:00; on such strings the order is the order of the
    second of the day. *)
Definition Clock_next (now : datetime) : bool :=
  let second_of_day := (now mod 86400000000) / 1000000 in
  (33300 <=? second_of_day) && (second_of_day <=? 54000).

Inductive Finish : Type :=
  | Stopped              (* the loop test failed: start returned *)
  | Crashed (e : exn)    (* an exception left start *)
  | Pending.             (* the loop is still running after these cycles *)

(** The [while] loop of [start], over the cycles the outside supplies, from
    the strategy and the console as they stand. *)
Fixpoint start_loop (cycles : list Cycle) (w : World) : Finish * World :=
  match cycles with
  | [] => (Pending, w)
  | c :: rest =>
      if cy_running c && (Clock_next (cy_now c) || TEST_MODE) then
        match (do _ <- emit [Refresh (cy_now c)];
               next (cy_now c) (cy_quotes c) (cy_fetch c)) w with
        | (Ok _, w') => start_loop rest w'
        | (Raise e, w') => (Crashed e, w')
        end
      else (Stopped, mkWorld (stock_code_info w) (console w ++ [MonitorEnd]))
  end.

(** A fresh strategy: [Strategy(clock)] with an empty dictionary. *)
Definition Strategy_init : World := mkWorld ∅ [].

(** [start]: a fresh strategy, then the loop. *)
Definition start (cycles : list Cycle) : Finish * World :=
  start_loop cycles Strategy_init.

(** ** Runs of the tracker over the sightings of one stock *)

(** One sighting of a stock: the clock time of the cycle, its row of the
    scan and its snapshot. *)
Record Sighting : Type := mkSighting {
  sg_now : datetime;
  sg_row : Row;
  sg_sn : Snapshot
}.


(** The tracker run over successive sightings of one stock, each starting
    from the record the previous one left: the tips and the records. *)
Fixpoint feed (obs : list Sighting) (pre : option StockQuoteInfo)
    : list (option Tip * StockQuoteInfo) :=
  match obs with
  | [] => []
  | o :: rest =>
      let r := track (sg_now o) (sg_row o) (sg_sn o) pre in
      r :: feed rest (Some (snd r))
  end.

(** Clock times that never go back. *)
Fixpoint nondecreasing (ts : list datetime) : Prop :=
  match ts with
  | [] => True
  | t :: rest =>
      match rest with
      | [] => True
      | t' :: _ => t <= t' /\ nondecreasing rest
      end
  end.


(** ** The six rules of the filter chain, one by one *)

(** The six rules as the chain tests them: a rule passes when the comparison
    that rejects is false. *)
Definition market_cap_ok (i : StockQuoteInfo) : bool :=
  negb (PyFloat.lt (total_market_value i) 1000000000%float
        || PyFloat.gt (total_market_value i) 100000000000%float).

Definition price_ok (i : StockQuoteInfo) : bool :=
  negb (PyFloat.lt (price i) 3%float || PyFloat.gt (price i) 20%float).

Definition turnover_ok (i : StockQuoteInfo) : bool :=
  negb (PyFloat.lt (turnover_rate i) 5%float || PyFloat.gt (turnover_rate i) 15%float).

Definition amount_ratio (i : StockQuoteInfo) : float :=
  PrimFloat.div (trading_amount i) (total_market_value i).

Definition amount_ratio_ok (i : StockQuoteInfo) : bool :=
  negb (PyFloat.lt (amount_ratio i) 0.05%float || PyFloat.gt (amount_ratio i) 0.15%float).

Definition depth_ratio (i : StockQuoteInfo) : float :=
  PrimFloat.div
    (PrimFloat.mul (PrimFloat.mul (buy_1_count i) 100%float) (buy_1_price i))
    (total_market_value i).

Definition depth_ok (i : StockQuoteInfo) : bool :=
  negb (PyFloat.lt (depth_ratio i) 0.005%float).

Definition hold_ok (i : StockQuoteInfo) : bool :=
  match zt_keep_seconds i with
  | Ok k => negb (k <? 30)
  | Raise _ => false
  end.

Definition all_rules_ok (i : StockQuoteInfo) : bool :=
  market_cap_ok i && price_ok i && turnover_ok i && amount_ratio_ok i
  && depth_ok i && hold_ok i.

(** The closed band of the rule table: [lo <= x <= hi]. *)
Definition in_band (lo x hi : float) : bool := PyFloat.le lo x && PyFloat.le x hi.

(** ** Worlds, and the cycle under a skipping policy *)

(** The world after the tracker's writes for one row. *)
Definition tracked (now : datetime) (row : Row) (sn : Snapshot) (w : World) : World :=
  mkWorld
    (<[row_stock_code row :=
         snd (track now row sn (stock_code_info w !! row_stock_code row))]>
       (stock_code_info w))
    (console w).

(** The policy of skipping a candidate whose snapshot is missing, as a
    variant of the loop: the body runs only for rows with a snapshot. *)
Definition next_row_skipping (now : datetime) (sns : gmap string Snapshot)
    (row : Row) : M unit :=
  match sns !! row_stock_code row with
  | Some _ => next_row now sns row
  | None => ret tt
  end.

Definition next_skipping (now : datetime) (quotes : list Row)
    (fetch : gmap string Snapshot) : M unit :=
  let quotes := candidates quotes in
  if (length quotes =? 0)%nat then ret tt
  else
    let sns := get_snapshot_fast fetch (map row_stock_code quotes) in
    for_each (next_row_skipping now sns) quotes.

(** A cycle in which every candidate's fetch returned a snapshot. *)
Definition cycle_complete (c : Cycle) : Prop :=
  Forall (fun x => is_Some (cy_fetch c !! row_stock_code x)) (candidates (cy_quotes c)).

(** ** Sample data: two stocks seen over several cycles *)

Definition t_10h : datetime := 36000000000.      (* 10:00:00 *)

Definition row_a : Row :=
  {| row_stock_code := "600000"; row_stock_name := "PFYH";
     row_change := Num 9.5%float;
     row_total_market_value := 5000000000%float;
     row_circulating_market_value := 4000000000%float |}.

(** The same stock in a later scan: the market value has moved. *)
Definition row_a' : Row :=
  {| row_stock_code := "600000"; row_stock_name := "PFYH";
     row_change := Num 10%float;
     row_total_market_value := 5200000000%float;
     row_circulating_market_value := 4100000000%float |}.

(** Below the limit of 10.00. *)
Definition sn_below : Snapshot :=
  {| sn_top_price := 10%float; sn_bottom_price := 8.18%float;
     sn_price := 9.5%float; sn_turnover_rate := 6%float;
     sn_trading_volume := 1000000%float; sn_trading_amount := 300000000%float;
     sn_sell_1_price := 9.51%float; sn_buy_1_price := 9.5%float;
     sn_sell_1_count := 100%float; sn_buy_1_count := 50000%float;
     sn_buy_2_count := 40%float; sn_buy_3_count := 30%float;
     sn_buy_4_count := 20%float; sn_buy_5_count := 10%float |}.

(** At the limit, with every market field different from [sn_below]. *)
Definition sn_limit : Snapshot :=
  {| sn_top_price := 10%float; sn_bottom_price := 8.18%float;
     sn_price := 10%float; sn_turnover_rate := 12%float;
     sn_trading_volume := 2000000%float; sn_trading_amount := 600000000%float;
     sn_sell_1_price := 0%float; sn_buy_1_price := 10%float;
     sn_sell_1_count := 0%float; sn_buy_1_count := 400000%float;
     sn_buy_2_count := 41%float; sn_buy_3_count := 31%float;
     sn_buy_4_count := 21%float; sn_buy_5_count := 11%float |}.

(** One cent under the limit: still within the tolerance. *)
Definition sn_wobble : Snapshot :=
  {| sn_top_price := 10%float; sn_bottom_price := 8.18%float;
     sn_price := 9.99%float; sn_turnover_rate := 13%float;
     sn_trading_volume := 2100000%float; sn_trading_amount := 610000000%float;
     sn_sell_1_price := 10%float; sn_buy_1_price := 9.99%float;
     sn_sell_1_count := 500%float; sn_buy_1_count := 1000%float;
     sn_buy_2_count := 42%float; sn_buy_3_count := 32%float;
     sn_buy_4_count := 22%float; sn_buy_5_count := 12%float |}.

(** At the limit with a turnover rate of 30 %, outside the band of rule 3. *)
Definition sn_hot : Snapshot :=
  {| sn_top_price := 10%float; sn_bottom_price := 8.18%float;
     sn_price := 10%float; sn_turnover_rate := 30%float;
     sn_trading_volume := 5000000%float; sn_trading_amount := 1500000000%float;
     sn_sell_1_price := 0%float; sn_buy_1_price := 10%float;
     sn_sell_1_count := 0%float; sn_buy_1_count := 10%float;
     sn_buy_2_count := 43%float; sn_buy_3_count := 33%float;
     sn_buy_4_count := 23%float; sn_buy_5_count := 13%float |}.

(** The record after a first sighting below the limit at 10:00:00. *)
Definition info_below : StockQuoteInfo := snd (track t_10h row_a sn_below None).

(** The record after a first sighting at the limit at 10:00:00. *)
Definition info_limit : StockQuoteInfo := snd (track t_10h row_a sn_limit None).

(** A record with the given market value, price, turnover rate, trading
    amount and first bid size, last off the limit at 10:00:00 and at the limit
    [held] seconds later. *)
Definition sample_info (tmv p turnover amount bid_size : float) (held : Z)
    : StockQuoteInfo :=
  {| stock_code := "600000"; stock_name := "PFYH";
     dt := t_10h + held * 1000000;
     price := p; top_price := 10%float; bottom_price := 8.18%float;
     latest_zt_dt := Some (t_10h + held * 1000000);
     latest_nzt_dt := t_10h;
     total_market_value := tmv;
     circulating_market_value := 4000000000%float;
     turnover_rate := turnover;
     trading_volume := 1000000%float;
     trading_amount := amount;
     sell_1_price := 0%float; buy_1_price := 10%float;
     sell_1_count := 0%float; buy_1_count := bid_size |}.

(** Passes the six rules: 5e9 of market value, price 10, turnover 6 %,
    amount 6 % of the market value, first bid 1 % of it, held 31 s. *)
Definition info_pass : StockQuoteInfo :=
  sample_info 5000000000 10 6 300000000 50000 31.

(** A second stock, and a scan of both. *)
Definition row_b : Row :=
  {| row_stock_code := "000001"; row_stock_name := "PAYH";
     row_change := Num 9.9%float;
     row_total_market_value := 8000000000%float;
     row_circulating_market_value := 7000000000%float |}.

Definition quotes_ab : list Row := [row_a; row_b].

(** The fetch for 600000 failed, the one for 000001 returned. *)
Definition fetch_b : gmap string Snapshot := <["000001" := sn_limit]> ∅.

Definition fetch_ab : gmap string Snapshot :=
  <["600000" := sn_limit]> (<["000001" := sn_limit]> ∅).

(** ** Clock.next as written: the time of day as text *)

Definition digit (n : Z) : Ascii.ascii := Ascii.ascii_of_nat (48 + Z.to_nat n).

(** A number below 100 on two digits, as [%H], [%M] and [%S] print it. *)
Definition two_digits (n : Z) : string :=
  String.String (digit (n / 10)) (String.String (digit (n mod 10)) String.EmptyString).

(** The second of the day of a datetime. *)
Definition second_of_day (now : datetime) : Z := (now mod 86400000000) / 1000000.

(** HH:MM:SS for a second of the day. *)
Definition hms (s : Z) : string :=
  String.append (two_digits (s / 3600))
    (String.append ":"
       (String.append (two_digits ((s / 60) mod 60))
          (String.append ":" (two_digits (s mod 60))))).

(** [dt.strftime('%H:%M:%S')] *)
Definition strftime_HMS (now : datetime) : string := hms (second_of_day now).

(** [st <= dt.strftime('%H:%M:%S') <= et]: strings compare character by
    character, by code point. *)
Definition Clock_next_text (now : datetime) : bool :=
  String.leb "09:15:00" (strftime_HMS now) && String.leb (strftime_HMS now) "15:00:00".

(** The text test and the test on seconds agree at second [s]. *)
Definition clock_agree (s : Z) : bool :=
  Bool.eqb (String.leb "09:15:00" (hms s) && String.leb (hms s) "15:00:00")
           ((33300 <=? s) && (s <=? 54000)).

(** ** Relations between worlds *)

(** The fields of a record that only its creation writes. *)
Definition same_static (i i' : StockQuoteInfo) : Prop :=
  stock_code i' = stock_code i /\ stock_name i' = stock_name i /\
  top_price i' = top_price i /\ bottom_price i' = bottom_price i /\
  total_market_value i' = total_market_value i /\
  circulating_market_value i' = circulating_market_value i /\
  turnover_rate i' = turnover_rate i /\
  trading_volume i' = trading_volume i /\
  trading_amount i' = trading_amount i /\
  sell_1_price i' = sell_1_price i /\ buy_1_price i' = buy_1_price i /\
  sell_1_count i' = sell_1_count i /\ buy_1_count i' = buy_1_count i.

(** Every record sits under its own stock code. *)
Definition keyed (d : gmap string StockQuoteInfo) : Prop :=
  forall c i, d !! c = Some i -> stock_code i = c.

(** The console lines of a list of messages: each sent, then echoed. *)
Definition echo_pairs (ms : list Msg) : list Event :=
  flat_map (fun m => [SendText m; RichPrint m]) ms.

(** The integers from [start], [n] of them. *)
Fixpoint zrange (n : nat) (start : Z) : list Z :=
  match n with
  | O => []
  | S n' => start :: zrange n' (start + 1)
  end.

(** What one cycle prints: its refresh line, then its messages. *)
Definition cycle_lines (c : datetime * list Msg) : list Event :=
  Refresh (fst c) :: echo_pairs (snd c).

(** ** A session seen from one stock *)

(** The record a run of sightings leaves. *)
Fixpoint feed_end (obs : list Sighting) (pre : option StockQuoteInfo)
    : option StockQuoteInfo :=
  match obs with
  | [] => pre
  | o :: rest => feed_end rest (Some (snd (track (sg_now o) (sg_row o) (sg_sn o) pre)))
  end.

(** The sightings of the stock [c] that a row, a cycle and a session
    amount to: one for each candidate row with that code whose snapshot
    was fetched, in the order of the scans. *)
Definition sightings_row (c : string) (now : datetime)
    (fetch : gmap string Snapshot) (r : Row) : list Sighting :=
  if decide (row_stock_code r = c) then
    match fetch !! c with
    | Some sn => [mkSighting now r sn]
    | None => []
    end
  else [].

Definition sightings_cycle (c : string) (cy : Cycle) : list Sighting :=
  flat_map (sightings_row c (cy_now cy) (cy_fetch cy)) (candidates (cy_quotes cy)).

Definition sightings_of (c : string) (cycles : list Cycle) : list Sighting :=
  flat_map (sightings_cycle c) cycles.

(** ** Sample data at the edges *)


(** The row of 600000 in a scan that has no number for its market value. *)
Definition row_nan : Row :=
  {| row_stock_code := "600000"; row_stock_name := "PFYH";
     row_change := Num 9.5%float;
     row_total_market_value := PrimFloat.nan;
     row_circulating_market_value := 4000000000%float |}.

(** The fetches of a cycle in which 600000 is the only candidate. *)
Definition fetch_a (sn : Snapshot) : gmap string Snapshot := <["600000" := sn]> ∅.

(** The record of [row_nan], first seen below the limit at 10:00:00 and at
    the limit 31 s later. *)
Definition info_nan : StockQuoteInfo :=
  snd (track (t_10h + 31000000) row_nan sn_limit
         (Some (snd (track t_10h row_nan sn_below None)))).

(** * Facts about binary64 comparisons

    The comparisons of [PrimFloat] are specified on [spec_float] by
    [SFcompare]; the facts the tracker and the filter chain rely on are
    derived from that specification. *)

Section FloatFacts.

Lemma SFcompare_swap (f1 f2 : spec_float) :
  SFcompare f2 f1 = option_map CompOpp (SFcompare f1 f2).
Proof.
  destruct f1 as [s1|s1| |s1 m1 e1], f2 as [s2|s2| |s2 m2 e2]; simpl;
    try reflexivity;
    try (destruct s1; reflexivity);
    try (destruct s2; reflexivity);
    try (destruct s1, s2; reflexivity).
  destruct s1, s2; simpl; try reflexivity;
    rewrite (Z.compare_antisym e1 e2);
    destruct (Z.compare e1 e2); simpl; try reflexivity;
    change (Pos.compare_cont Eq m2 m1) with (Pos.compare m2 m1);
    change (Pos.compare_cont Eq m1 m2) with (Pos.compare m1 m2);
    rewrite (Pos.compare_antisym m1 m2); try reflexivity.
Qed.

Lemma SFcompare_refl (f : spec_float) :
  f <> S754_nan -> SFcompare f f = Some Eq.
Proof.
  destruct f as [s|s| |s m e]; simpl; intros Hn; try congruence.
  - destruct s; reflexivity.
  - destruct s; rewrite Z.compare_refl;
      change (Pos.compare_cont Eq m m) with (Pos.compare m m);
      rewrite Pos.compare_refl; reflexivity.
Qed.

Lemma SFcompare_total (f1 f2 : spec_float) :
  f1 <> S754_nan -> f2 <> S754_nan -> exists c, SFcompare f1 f2 = Some c.
Proof.
  destruct f1, f2; simpl; intros H1 H2; try congruence; eauto.
Qed.

Lemma SFcompare_nan (f1 f2 : spec_float) :
  f1 = S754_nan \/ f2 = S754_nan -> SFcompare f1 f2 = None.
Proof.
  intros [-> | ->]; [reflexivity | destruct f1; reflexivity].
Qed.

Lemma ltb_irrefl (x : float) : PrimFloat.ltb x x = false.
Proof.
  rewrite FloatAxioms.ltb_spec. unfold SFltb.
  destruct (Prim2SF x) as [s|s| |s m e] eqn:E.
  - reflexivity.
  - rewrite SFcompare_refl by discriminate. reflexivity.
  - reflexivity.
  - rewrite SFcompare_refl by discriminate. reflexivity.
Qed.

Lemma eqb_refl (x : float) : ~ PyFloat.is_nan x -> PrimFloat.eqb x x = true.
Proof.
  unfold PyFloat.is_nan. intros Hn.
  rewrite FloatAxioms.eqb_spec. unfold SFeqb. rewrite SFcompare_refl by assumption.
  reflexivity.
Qed.

Lemma ltb_asym (x y : float) :
  PrimFloat.ltb x y = true -> PrimFloat.ltb y x = false.
Proof.
  rewrite !FloatAxioms.ltb_spec. unfold SFltb.
  rewrite (SFcompare_swap (Prim2SF x) (Prim2SF y)).
  destruct (SFcompare (Prim2SF x) (Prim2SF y)) as [[ | | ]|]; simpl; congruence.
Qed.

Lemma ltb_neq (x y : float) :
  PrimFloat.ltb y x = true -> PrimFloat.eqb y x = false.
Proof.
  rewrite FloatAxioms.ltb_spec, FloatAxioms.eqb_spec. unfold SFltb, SFeqb.
  destruct (SFcompare (Prim2SF y) (Prim2SF x)) as [[ | | ]|]; simpl; congruence.
Qed.

Lemma ltb_neq_sym (x y : float) :
  PrimFloat.ltb x y = true -> PrimFloat.eqb y x = false.
Proof.
  rewrite FloatAxioms.ltb_spec, FloatAxioms.eqb_spec. unfold SFltb, SFeqb.
  rewrite (SFcompare_swap (Prim2SF x) (Prim2SF y)).
  destruct (SFcompare (Prim2SF x) (Prim2SF y)) as [[ | | ]|]; simpl; congruence.
Qed.

(** Away from NaN, [x < y] is the negation of [y <= x]. *)
Lemma ltb_negb_leb (x y : float) :
  ~ PyFloat.is_nan x -> ~ PyFloat.is_nan y ->
  PrimFloat.ltb x y = negb (PrimFloat.leb y x).
Proof.
  unfold PyFloat.is_nan. intros Hx Hy.
  rewrite FloatAxioms.ltb_spec, FloatAxioms.leb_spec. unfold SFltb, SFleb.
  rewrite (SFcompare_swap (Prim2SF x) (Prim2SF y)).
  destruct (SFcompare_total _ _ Hx Hy) as [c ->].
  destruct c; reflexivity.
Qed.

(** A comparison with a NaN operand is false. *)
Lemma leb_nan_l (x y : float) : PyFloat.is_nan x -> PrimFloat.leb x y = false.
Proof.
  unfold PyFloat.is_nan. intros Hx. rewrite FloatAxioms.leb_spec. unfold SFleb.
  rewrite SFcompare_nan by (left; assumption). reflexivity.
Qed.

Lemma ltb_nan (x y : float) :
  PyFloat.is_nan x \/ PyFloat.is_nan y -> PrimFloat.ltb x y = false.
Proof.
  unfold PyFloat.is_nan. intros H. rewrite FloatAxioms.ltb_spec. unfold SFltb.
  rewrite SFcompare_nan by assumption. reflexivity.
Qed.

(** NaN propagates through the subtraction and the absolute value, so a
    price at the limit is a number, and so is the limit. *)
Lemma at_limit_not_nan (top current : float) :
  at_limit top current = true ->
  ~ PyFloat.is_nan top /\ ~ PyFloat.is_nan current.
Proof.
  unfold at_limit, PyFloat.le. intros H.
  assert (Hd : ~ PyFloat.is_nan (PrimFloat.abs (PrimFloat.sub top current))).
  { intros Hn. rewrite (leb_nan_l _ _ Hn) in H. discriminate. }
  unfold PyFloat.is_nan in *.
  rewrite FloatAxioms.abs_spec, FloatAxioms.sub_spec in Hd. unfold SF64sub in Hd.
  split; intros Hn; apply Hd; rewrite Hn; [reflexivity |].
  destruct (Prim2SF top); reflexivity.
Qed.

(** A market value that is not below 1e9 is not a zero: the two divisions
    of the filter chain cannot raise. *)
Lemma SFcompare_zero_finite (f : spec_float) (m : positive) (e : Z) :
  SFcompare f (S754_zero false) = Some Eq ->
  SFcompare f (S754_finite false m e) = Some Lt.
Proof.
  destruct f as [s|s| |s m' e']; cbn [SFcompare]; try discriminate.
  - reflexivity.
  - destruct s; discriminate.
  - destruct s; discriminate.
Qed.

Lemma not_lt_1e9_nonzero (x : float) :
  PyFloat.lt x 1000000000%float = false -> PrimFloat.eqb x 0%float = false.
Proof.
  unfold PyFloat.lt. rewrite FloatAxioms.ltb_spec, FloatAxioms.eqb_spec.
  unfold SFltb, SFeqb.
  assert (H9 : exists m e, Prim2SF 1000000000%float = S754_finite false m e)
    by (vm_compute; eauto).
  destruct H9 as (m & e & ->).
  replace (Prim2SF 0%float) with (S754_zero false) by (vm_compute; reflexivity).
  destruct (SFcompare (Prim2SF x) (S754_zero false)) as [[ | | ]|] eqn:E;
    try reflexivity.
  rewrite (SFcompare_zero_finite _ m e E). discriminate.
Qed.

End FloatFacts.

(** * The tracker: one sighting *)

Section Tracker.

Variables (now : datetime) (row : Row) (sn : Snapshot).

Lemma track_price (pre : option StockQuoteInfo) :
  price (snd (track now row sn pre)) = sn_price sn.
Proof.
  unfold track, classify.
  destruct pre; simpl;
    repeat match goal with |- context [if ?b then _ else _] => destruct b end;
    reflexivity.
Qed.

Lemma track_dt (pre : option StockQuoteInfo) :
  dt (snd (track now row sn pre)) = now.
Proof.
  unfold track, classify.
  destruct pre; simpl;
    repeat match goal with |- context [if ?b then _ else _] => destruct b end;
    reflexivity.
Qed.

(** Off the limit the tip stays [None]. *)
Lemma track_off_limit (pre : option StockQuoteInfo) :
  at_limit (sn_top_price sn) (sn_price sn) = false ->
  fst (track now row sn pre) = None.
Proof.
  intros H. unfold track, classify. rewrite H. destruct pre; reflexivity.
Qed.


(** A first sighting at the limit: both time stamps are the clock time. *)
Lemma track_first_at_limit :
  at_limit (sn_top_price sn) (sn_price sn) = true ->
  track now row sn None =
    (Some ZT_TIP,
     set_dt (set_price (set_latest_zt_dt (new_info now row sn) now) (sn_price sn)) now).
Proof.
  intros H. unfold track, classify. rewrite H. reflexivity.
Qed.

(** The two tips that can notify leave the limit time at the clock time,
    and the other time stamp as it was. *)
Lemma track_zt_written (pre : option StockQuoteInfo) :
  fst (track now row sn pre) = Some ZT_TIP \/
  fst (track now row sn pre) = Some ZT_KEEP_TIP ->
  latest_zt_dt (snd (track now row sn pre)) = Some now /\
  latest_nzt_dt (snd (track now row sn pre)) =
    match pre with Some i => latest_nzt_dt i | None => now end.
Proof.
  unfold track, classify.
  destruct (at_limit (sn_top_price sn) (sn_price sn)); destruct pre as [i|]; simpl;
    repeat match goal with |- context [if ?b then _ else _] => destruct b end;
    simpl; intros [H | H]; try discriminate; auto.
Qed.

(** The fields a later sighting leaves alone: everything except the price,
    the observation time and the two limit time stamps. *)
Lemma track_existing_fields (i : StockQuoteInfo) :
  let i' := snd (track now row sn (Some i)) in
  stock_code i' = stock_code i /\ stock_name i' = stock_name i /\
  top_price i' = top_price i /\ bottom_price i' = bottom_price i /\
  total_market_value i' = total_market_value i /\
  circulating_market_value i' = circulating_market_value i /\
  turnover_rate i' = turnover_rate i /\
  trading_volume i' = trading_volume i /\
  trading_amount i' = trading_amount i /\
  sell_1_price i' = sell_1_price i /\ buy_1_price i' = buy_1_price i /\
  sell_1_count i' = sell_1_count i /\ buy_1_count i' = buy_1_count i.
Proof.
  unfold track, classify. simpl.
  repeat match goal with |- context [if ?b then _ else _] => destruct b end;
    simpl; repeat split; reflexivity.
Qed.

End Tracker.


(** * The tracker: claims *)

(** C1 (the code departs from the claim). A stock with a record reappears:
    the tracker sets the price to the current price and the observation
    time to the clock time, but the market and liquidity fields keep the
    values of the first sighting; none of them takes the value of the latest
    row or snapshot. Here the record was made from [row_a] and [sn_below] and
    the stock reappears three seconds later with [row_a'] and [sn_limit]. *)
Theorem C1_market_fields_stale :
  let i := snd (track (t_10h + 3000000) row_a' sn_limit (Some info_below)) in
  price i = sn_price sn_limit /\ dt i = t_10h + 3000000 /\
  total_market_value i = 5000000000%float /\
  row_total_market_value row_a' = 5200000000%float /\
  turnover_rate i = 6%float /\ sn_turnover_rate sn_limit = 12%float /\
  trading_volume i = 1000000%float /\ sn_trading_volume sn_limit = 2000000%float /\
  trading_amount i = 300000000%float /\ sn_trading_amount sn_limit = 600000000%float /\
  buy_1_price i = 9.5%float /\ sn_buy_1_price sn_limit = 10%float /\
  buy_1_count i = 50000%float /\ sn_buy_1_count sn_limit = 400000%float /\
  PyFloat.eq (turnover_rate i) (sn_turnover_rate sn_limit) = false /\
  PyFloat.eq (buy_1_count i) (sn_buy_1_count sn_limit) = false.
Proof.
  vm_compute. repeat split; reflexivity.
Qed.

(** What the stale fields do to the decision: the stock was first seen below
    the limit with a turnover rate of 6 %; 31 s later it is at the limit with
    a turnover rate of 30 %, a traded amount near 30 % of the market value and
    a first bid of 10 lots, and the message goes out, reporting the old values
    next to the current bid sizes. *)
Example stale_fields_decide :
  let w := mkWorld (<["600000" := info_below]> ∅) [] in
  let sns := <["600000" := sn_hot]> ∅ in
  exists m,
    console (snd (next_row (t_10h + 31000000) sns row_a' w))
      = [SendText m; RichPrint m] /\
    msg_turnover_rate m = 6%float /\
    msg_trading_amount m = 300000000%float /\
    msg_buy_list m = buy_list sn_hot.
Proof.
  vm_compute. eexists. repeat split; reflexivity.
Qed.




(** C5. A stock with a record, a price that passes the at-limit test and is
    strictly below the recorded price: the tip is BREAK, the off-limit time
    becomes the clock time and the at-limit time is left as it was. *)
Theorem C5_break_on_lower_price (now : datetime) (row : Row) (sn : Snapshot)
    (i : StockQuoteInfo) :
  at_limit (sn_top_price sn) (sn_price sn) = true ->
  PyFloat.lt (sn_price sn) (price i) = true ->
  fst (track now row sn (Some i)) = Some ZT_BREAK_TIP /\
  latest_nzt_dt (snd (track now row sn (Some i))) = now /\
  latest_zt_dt (snd (track now row sn (Some i))) = latest_zt_dt i.
Proof.
  unfold PyFloat.lt. intros Hlim Hlt.
  unfold track, classify, PyFloat.gt, PyFloat.eq. rewrite Hlim. simpl.
  rewrite (ltb_asym _ _ Hlt), (ltb_neq _ _ Hlt). simpl. auto.
Qed.

Lemma C5_witness :
  fst (track (t_10h + 6000000) row_a sn_wobble (Some info_limit)) = Some ZT_BREAK_TIP /\
  latest_nzt_dt (snd (track (t_10h + 6000000) row_a sn_wobble (Some info_limit)))
    = t_10h + 6000000 /\
  latest_zt_dt (snd (track (t_10h + 6000000) row_a sn_wobble (Some info_limit)))
    = latest_zt_dt info_limit.
Proof.
  apply C5_break_on_lower_price; reflexivity.
Defined.

(** The at-limit test on binary64: the bound itself passes, one cent under
    a limit of 10.00 passes on either side, and two prices a cent apart can
    fail it by rounding. *)
Remark at_limit_samples :
  at_limit 0.02%float 0.01%float = true /\
  at_limit 10%float 9.99%float = true /\
  at_limit 9.99%float 10%float = true /\
  at_limit 0.07%float 0.06%float = false.
Proof. vm_compute. repeat split; reflexivity. Qed.

(** [timedelta.seconds] drops the microseconds and the days, and a negative
    difference is normalised to a negative day and a positive rest. *)
Remark td_seconds_samples :
  td_seconds 40000000 = 40 /\ td_seconds 39500000 = 39 /\
  td_seconds (-39500000) = 86360 /\ td_seconds (86400000000 + 5000000) = 5.
Proof. repeat split; reflexivity. Qed.

Lemma td_seconds_range (d : timedelta) : 0 <= td_seconds d < 86400.
Proof.
  unfold td_seconds.
  pose proof (Z.mod_pos_bound d 86400000000 ltac:(lia)) as Hm.
  split.
  - apply Z.div_pos; lia.
  - apply Z.div_lt_upper_bound; lia.
Qed.

(** The off-limit time of a record never runs ahead of the clock. *)
Lemma track_nzt_bound (t now : datetime) (row : Row) (sn : Snapshot)
    (pre : option StockQuoteInfo) :
  t <= now ->
  (forall i, pre = Some i -> latest_nzt_dt i <= t) ->
  latest_nzt_dt (snd (track now row sn pre)) <= now.
Proof.
  intros Ht Hpre. unfold track, classify.
  destruct pre as [i|]; simpl;
    [specialize (Hpre i eq_refl) |];
    repeat match goal with |- context [if ?b then _ else _] => destruct b end;
    simpl; lia.
Qed.

Lemma feed_hold_nonneg (obs : list Sighting) :
  forall (pre : option StockQuoteInfo),
  nondecreasing (map sg_now obs) ->
  (forall i o, pre = Some i -> head obs = Some o -> latest_nzt_dt i <= sg_now o) ->
  forall tip i, In (tip, i) (feed obs pre) ->
  tip = Some ZT_TIP \/ tip = Some ZT_KEEP_TIP ->
  exists zt k, latest_zt_dt i = Some zt /\ latest_nzt_dt i <= zt /\
               zt_keep_seconds i = Ok k /\ 0 <= k.
Proof.
  induction obs as [|o rest IH]; intros pre Hmono Hpre tip i Hin Htip;
    [destruct Hin |].
  simpl in Hin. destruct Hin as [Hhd | Htl].
  - pose proof (track_zt_written (sg_now o) (sg_row o) (sg_sn o) pre) as Hz.
    rewrite Hhd in Hz. simpl in Hz. destruct (Hz Htip) as [Hzt Hnzt].
    assert (Hle : latest_nzt_dt i <= sg_now o).
    { rewrite Hnzt. destruct pre as [j|]; [| lia].
      apply (Hpre j o); reflexivity. }
    exists (sg_now o), (td_seconds (dt_sub (sg_now o) (latest_nzt_dt i))).
    unfold zt_keep_seconds. rewrite Hzt.
    repeat split; auto. apply td_seconds_range.
  - apply (IH (Some (snd (track (sg_now o) (sg_row o) (sg_sn o) pre))))
      with (tip := tip); auto.
    + simpl in Hmono. destruct rest; simpl in *; tauto.
    + intros j o' Hj Ho'. injection Hj as <-.
      destruct rest as [|o2 rest]; simpl in Ho'; [discriminate |].
      injection Ho' as <-. simpl in Hmono.
      apply Z.le_trans with (sg_now o); [| tauto].
      apply track_nzt_bound with (t := sg_now o); [lia |].
      intros j Hj. apply (Hpre j o); [exact Hj | reflexivity].
Qed.

(** C6. Sightings of one stock, fed to the tracker from its first sighting
    on with clock times that never go back: right after every JUST_HIT or
    HOLDING tip the at-limit time is set and is not before the off-limit
    time, and [zt_keep_seconds] returns a number that is at least 0. *)
Theorem C6_hold_seconds_nonneg (obs : list Sighting) (tip : option Tip)
    (i : StockQuoteInfo) :
  nondecreasing (map sg_now obs) ->
  In (tip, i) (feed obs None) ->
  tip = Some ZT_TIP \/ tip = Some ZT_KEEP_TIP ->
  exists zt k, latest_zt_dt i = Some zt /\ latest_nzt_dt i <= zt /\
               zt_keep_seconds i = Ok k /\ 0 <= k.
Proof.
  intros Hmono Hin Htip.
  apply (feed_hold_nonneg obs None Hmono) with (tip := tip); auto.
  intros j o Hj. discriminate.
Qed.

(** Below the limit at 10:00:00, at the limit 3 s later, still there 40 s
    after that: the third sighting is HOLDING and has held for 43 s. *)
Lemma C6_witness :
  exists zt k,
    latest_zt_dt (snd (track (t_10h + 43000000) row_a sn_limit
                         (Some (snd (track (t_10h + 3000000) row_a sn_limit
                                       (Some info_below)))))) = Some zt /\
    latest_nzt_dt (snd (track (t_10h + 43000000) row_a sn_limit
                          (Some (snd (track (t_10h + 3000000) row_a sn_limit
                                        (Some info_below)))))) <= zt /\
    zt_keep_seconds (snd (track (t_10h + 43000000) row_a sn_limit
                            (Some (snd (track (t_10h + 3000000) row_a sn_limit
                                          (Some info_below)))))) = Ok k /\
    0 <= k.
Proof.
  apply (C6_hold_seconds_nonneg
           [mkSighting t_10h row_a sn_below;
            mkSighting (t_10h + 3000000) row_a sn_limit;
            mkSighting (t_10h + 43000000) row_a sn_limit]
           (Some ZT_KEEP_TIP)).
  - simpl. unfold t_10h. lia.
  - simpl. right. right. left. reflexivity.
  - right. reflexivity.
Defined.

(** C7. Every update leaves the current price as the recorded price, so a
    snapshot at the limit fed a second time, whatever the record before the
    first time and whatever the two clock times, gets the tip HOLDING. *)
Theorem C7_same_snapshot_twice_holds (t1 t2 : datetime) (row : Row) (sn : Snapshot)
    (pre : option StockQuoteInfo) :
  at_limit (sn_top_price sn) (sn_price sn) = true ->
  price (snd (track t1 row sn pre)) = sn_price sn /\
  fst (track t2 row sn (Some (snd (track t1 row sn pre)))) = Some ZT_KEEP_TIP.
Proof.
  intros Hlim. split; [apply track_price |].
  destruct (at_limit_not_nan _ _ Hlim) as [_ Hnan].
  pose proof (track_price t1 row sn pre) as Hp.
  unfold track at 1. unfold classify. rewrite Hlim, Hp.
  unfold PyFloat.gt, PyFloat.eq. simpl.
  rewrite ltb_irrefl, (eqb_refl _ Hnan). reflexivity.
Qed.

Lemma C7_witness :
  price (snd (track t_10h row_a sn_limit None)) = sn_price sn_limit /\
  fst (track (t_10h + 3000000) row_a sn_limit
         (Some (snd (track t_10h row_a sn_limit None)))) = Some ZT_KEEP_TIP.
Proof.
  apply C7_same_snapshot_twice_holds. reflexivity.
Defined.

(** * The filter chain: claims *)

Section Filter.

Variables (now : datetime) (row : Row) (sn : Snapshot) (tip : option Tip).

(** The chain is the conjunction of the first five rules followed by the
    read of the hold time; neither division raises. *)
Lemma rule_chain_unfold (i : StockQuoteInfo) :
  rule_chain now row sn tip i =
    if market_cap_ok i && price_ok i && turnover_ok i && amount_ratio_ok i
       && depth_ok i
    then match zt_keep_seconds i with
         | Ok k => if k <? 30 then Ok None else Ok (Some (render now row sn tip i k))
         | Raise e => Raise e
         end
    else Ok None.
Proof.
  unfold rule_chain, market_cap_ok, price_ok, turnover_ok, amount_ratio_ok,
    depth_ok, amount_ratio, depth_ratio, PyFloat.truediv.
  destruct (PyFloat.lt (total_market_value i) 1000000000) eqn:E1; [reflexivity |].
  rewrite (not_lt_1e9_nonzero _ E1). simpl.
  destruct (PyFloat.gt (total_market_value i) 100000000000); [reflexivity |].
  destruct (PyFloat.lt (price i) 3 || PyFloat.gt (price i) 20); [reflexivity |].
  destruct (PyFloat.lt (turnover_rate i) 5 || PyFloat.gt (turnover_rate i) 15);
    [reflexivity |].
  simpl.
  destruct (PyFloat.lt (trading_amount i / total_market_value i) 0.05
            || PyFloat.gt (trading_amount i / total_market_value i) 0.15);
    [reflexivity |].
  simpl.
  destruct (PyFloat.lt (buy_1_count i * 100 * buy_1_price i / total_market_value i)
              0.005); [reflexivity |].
  simpl. destruct (zt_keep_seconds i) as [k|e]; simpl; [| reflexivity].
  destruct (k <? 30); reflexivity.
Qed.

(** The chain notifies exactly when the six rules pass. *)
Lemma rule_chain_notifies (i : StockQuoteInfo) :
  (exists m, rule_chain now row sn tip i = Ok (Some m)) <-> all_rules_ok i = true.
Proof.
  rewrite rule_chain_unfold. unfold all_rules_ok, hold_ok.
  destruct (market_cap_ok i && price_ok i && turnover_ok i && amount_ratio_ok i
            && depth_ok i); simpl.
  - destruct (zt_keep_seconds i) as [k|e]; [destruct (k <? 30) |]; simpl;
      split; try discriminate; eauto; intros [m Hm]; discriminate.
  - split; [intros [m Hm] |]; discriminate.
Qed.

(** The gate: which tips let the chain run. *)
Lemma trigger_true (i : StockQuoteInfo) :
  trigger tip i = Ok true <->
  tip = Some ZT_TIP \/
  (tip = Some ZT_KEEP_TIP /\
   exists k, zt_keep_seconds i = Ok k /\ k <= ZT_NOTICE_MAX_SECONDS).
Proof.
  unfold trigger.
  destruct tip as [[ | | ]|]; simpl.
  - split; auto.
  - destruct (zt_keep_seconds i) as [k|e]; simpl.
    + destruct (Z.leb_spec k ZT_NOTICE_MAX_SECONDS); split.
      * intros _. right. split; [reflexivity |]. exists k. auto.
      * reflexivity.
      * discriminate.
      * intros [? | [_ (k' & Hk' & Hle)]]; [discriminate |].
        injection Hk' as <-. lia.
    + split; [discriminate |].
      intros [? | [_ (k' & Hk' & _)]]; discriminate.
  - split; [discriminate |]. intros [? | [? _]]; discriminate.
  - split; [discriminate |]. intros [? | [? _]]; discriminate.
Qed.

End Filter.

(** Off NaN, the comparisons that reject a value outside [lo, hi] are false
    exactly on the closed band. *)
Lemma not_outside_is_band (lo x hi : float) :
  ~ PyFloat.is_nan lo -> ~ PyFloat.is_nan x -> ~ PyFloat.is_nan hi ->
  negb (PyFloat.lt x lo || PyFloat.gt x hi) = in_band lo x hi.
Proof.
  intros Hlo Hx Hhi. unfold PyFloat.lt, PyFloat.gt, in_band, PyFloat.le.
  rewrite (ltb_negb_leb x lo Hx Hlo), (ltb_negb_leb hi x Hhi Hx).
  destruct (PrimFloat.leb lo x), (PrimFloat.leb x hi); reflexivity.
Qed.

(** A NaN is outside every band and yet no comparison rejects it. *)
Remark nan_not_rejected (lo hi : float) :
  negb (PyFloat.lt PrimFloat.nan lo || PyFloat.gt PrimFloat.nan hi) = true /\
  in_band lo PrimFloat.nan hi = false.
Proof.
  assert (Hn : PyFloat.is_nan PrimFloat.nan) by (vm_compute; reflexivity).
  unfold PyFloat.lt, PyFloat.gt, in_band, PyFloat.le.
  rewrite (ltb_nan PrimFloat.nan lo) by (left; exact Hn).
  rewrite (ltb_nan hi PrimFloat.nan) by (right; exact Hn).
  rewrite (leb_nan_l PrimFloat.nan hi Hn).
  split; [reflexivity | apply andb_false_r].
Qed.

(** C2. The chain is evaluated exactly when the tip is JUST_HIT, or the tip
    is HOLDING and [zt_keep_seconds] is at most 33: then the decision is the
    chain's; otherwise nothing is sent. A HOLDING record that has held 40 s
    sends nothing, whatever the six rules say. *)
Theorem C2_trigger_gate (now : datetime) (row : Row) (sn : Snapshot)
    (tip : option Tip) (i : StockQuoteInfo) :
  (trigger tip i = Ok true <->
     tip = Some ZT_TIP \/
     (tip = Some ZT_KEEP_TIP /\ exists k, zt_keep_seconds i = Ok k /\ k <= 33)) /\
  (trigger tip i = Ok true ->
     notice now row sn tip i = rule_chain now row sn tip i) /\
  (trigger tip i <> Ok true ->
     forall m, notice now row sn tip i <> Ok (Some m)) /\
  (tip = Some ZT_KEEP_TIP -> zt_keep_seconds i = Ok 40 ->
     notice now row sn tip i = Ok None).
Proof.
  split; [apply trigger_true |].
  unfold notice. repeat split.
  - intros ->. reflexivity.
  - intros Hne m. destruct (trigger tip i) as [[ | ]|e]; simpl;
      [congruence | discriminate | discriminate].
  - intros -> Hk. unfold trigger. simpl. rewrite Hk. reflexivity.
Qed.

(** The stock hits the limit at 10:00:00 on its first sighting and is still
    there 40 s later: HOLDING, held 40 s, the six rules pass, nothing sent. *)
Lemma C2_witness :
  fst (track (t_10h + 40000000) row_a sn_limit (Some info_limit)) = Some ZT_KEEP_TIP /\
  all_rules_ok (snd (track (t_10h + 40000000) row_a sn_limit (Some info_limit))) = true /\
  notice (t_10h + 40000000) row_a sn_limit (Some ZT_KEEP_TIP)
    (snd (track (t_10h + 40000000) row_a sn_limit (Some info_limit))) = Ok None.
Proof.
  split; [reflexivity |]. split; [vm_compute; reflexivity |].
  apply (C2_trigger_gate (t_10h + 40000000) row_a sn_limit (Some ZT_KEEP_TIP)
           (snd (track (t_10h + 40000000) row_a sn_limit (Some info_limit)))).
  - reflexivity.
  - vm_compute. reflexivity.
Defined.

(** The six rules in the words of the rule table: off NaN, a rule passes
    exactly on its closed band. *)
Lemma rules_are_bands (i : StockQuoteInfo) :
  (~ PyFloat.is_nan (total_market_value i) ->
     market_cap_ok i = in_band 1000000000 (total_market_value i) 100000000000) /\
  (~ PyFloat.is_nan (price i) -> price_ok i = in_band 3 (price i) 20) /\
  (~ PyFloat.is_nan (turnover_rate i) ->
     turnover_ok i = in_band 5 (turnover_rate i) 15) /\
  (~ PyFloat.is_nan (amount_ratio i) ->
     amount_ratio_ok i = in_band 0.05 (amount_ratio i) 0.15) /\
  (~ PyFloat.is_nan (depth_ratio i) ->
     depth_ok i = PyFloat.le 0.005 (depth_ratio i)) /\
  (forall k, zt_keep_seconds i = Ok k -> hold_ok i = (30 <=? k)).
Proof.
  unfold market_cap_ok, price_ok, turnover_ok, amount_ratio_ok, depth_ok, hold_ok.
  repeat split; intros H;
    try (apply not_outside_is_band; try exact H;
         unfold PyFloat.is_nan; vm_compute; discriminate).
  - unfold PyFloat.lt, PyFloat.le. rewrite ltb_negb_leb, negb_involutive;
      [reflexivity | exact H | unfold PyFloat.is_nan; vm_compute; discriminate].
  - intros Hk. rewrite Hk. symmetry. apply Z.leb_antisym.
Qed.

(** For a record that passes the gate, a message is sent exactly when none
    of the chain's six tests rejects. *)
Lemma notice_iff_rules (now : datetime) (row : Row) (sn : Snapshot)
    (tip : option Tip) (i : StockQuoteInfo) :
  trigger tip i = Ok true ->
  ((exists m, notice now row sn tip i = Ok (Some m)) <-> all_rules_ok i = true).
Proof.
  intros Hgate. unfold notice. rewrite Hgate. simpl. apply rule_chain_notifies.
Qed.

(** C3, as stated, fails. A stock whose scan row has no number for the
    market value (a NaN) is first seen below the limit and hits it 31 s
    later: the record passes the gate and the message goes out, although the
    market value is in no band, and neither is the amount ratio nor the depth
    ratio computed from it. No comparison with a NaN is true, so no rule
    rejects. *)
Lemma C3_counterexample :
  fst (track (t_10h + 31000000) row_nan sn_limit
         (Some (snd (track t_10h row_nan sn_below None)))) = Some ZT_TIP /\
  trigger (Some ZT_TIP) info_nan = Ok true /\
  (exists m, notice (t_10h + 31000000) row_nan sn_limit (Some ZT_TIP) info_nan
             = Ok (Some m)) /\
  in_band 1000000000 (total_market_value info_nan) 100000000000 = false /\
  in_band 0.05 (amount_ratio info_nan) 0.15 = false /\
  PyFloat.le 0.005 (depth_ratio info_nan) = false /\
  (exists m,
     console (snd (start [mkCycle true t_10h [row_nan] (fetch_a sn_below);
                          mkCycle true (t_10h + 31000000) [row_nan]
                            (fetch_a sn_limit)]))
       = [Refresh t_10h; Refresh (t_10h + 31000000); SendText m; RichPrint m]).
Proof.
  split; [vm_compute; reflexivity |]. split; [vm_compute; reflexivity |].
  split; [vm_compute; eexists; reflexivity |].
  split; [vm_compute; reflexivity |]. split; [vm_compute; reflexivity |].
  split; [vm_compute; reflexivity |].
  vm_compute. eexists. reflexivity.
Qed.

(** C3, amended. For a record that passes the gate and whose five compared
    values are numbers (the market value, the price, the turnover rate, the
    amount ratio and the depth ratio are not NaN), a message is sent exactly
    when the six conditions hold: market value in [1e9, 1e11], price in
    [3, 20], turnover rate in [5, 15], amount ratio in [0.05, 0.15], depth
    ratio at least 0.005, hold time at least 30 s; and one failing condition is
    enough for nothing to be sent, whatever the other five say. *)
Theorem C3_strict_conjunction (now : datetime) (row : Row) (sn : Snapshot)
    (tip : option Tip) (i : StockQuoteInfo) :
  trigger tip i = Ok true ->
  ~ PyFloat.is_nan (total_market_value i) ->
  ~ PyFloat.is_nan (price i) ->
  ~ PyFloat.is_nan (turnover_rate i) ->
  ~ PyFloat.is_nan (amount_ratio i) ->
  ~ PyFloat.is_nan (depth_ratio i) ->
  ((exists m, notice now row sn tip i = Ok (Some m)) <->
     in_band 1000000000 (total_market_value i) 100000000000 = true /\
     in_band 3 (price i) 20 = true /\
     in_band 5 (turnover_rate i) 15 = true /\
     in_band 0.05 (amount_ratio i) 0.15 = true /\
     PyFloat.le 0.005 (depth_ratio i) = true /\
     (exists k, zt_keep_seconds i = Ok k /\ 30 <= k)) /\
  (in_band 1000000000 (total_market_value i) 100000000000 = false \/
   in_band 3 (price i) 20 = false \/
   in_band 5 (turnover_rate i) 15 = false \/
   in_band 0.05 (amount_ratio i) 0.15 = false \/
   PyFloat.le 0.005 (depth_ratio i) = false \/
   (forall k, zt_keep_seconds i = Ok k -> k < 30) ->
     forall m, notice now row sn tip i <> Ok (Some m)).
Proof.
  intros Hgate N1 N2 N3 N4 N5.
  destruct (rules_are_bands i) as (B1 & B2 & B3 & B4 & B5 & B6).
  assert (Hhold : hold_ok i = true <-> exists k, zt_keep_seconds i = Ok k /\ 30 <= k).
  { unfold hold_ok. destruct (zt_keep_seconds i) as [k|e].
    - destruct (Z.ltb_spec k 30); simpl; split.
      + discriminate.
      + intros (k' & Hk' & Hk). injection Hk' as <-. lia.
      + intros _. exists k. split; [reflexivity | lia].
      + reflexivity.
    - split; [discriminate | intros (k & Hk & _); discriminate]. }
  assert (Hiff :
    (exists m, notice now row sn tip i = Ok (Some m)) <->
     in_band 1000000000 (total_market_value i) 100000000000 = true /\
     in_band 3 (price i) 20 = true /\
     in_band 5 (turnover_rate i) 15 = true /\
     in_band 0.05 (amount_ratio i) 0.15 = true /\
     PyFloat.le 0.005 (depth_ratio i) = true /\
     (exists k, zt_keep_seconds i = Ok k /\ 30 <= k)).
  { rewrite (notice_iff_rules now row sn tip i Hgate). unfold all_rules_ok.
    rewrite !andb_true_iff, Hhold, (B1 N1), (B2 N2), (B3 N3), (B4 N4), (B5 N5).
    tauto. }
  split; [exact Hiff |].
  intros Hfail m Hm.
  assert (Hall := proj1 Hiff (ex_intro _ m Hm)).
  destruct Hall as (H1 & H2 & H3 & H4 & H5 & (k & Hk & Hk30)).
  destruct Hfail as [H | [H | [H | [H | [H | H]]]]]; try congruence.
  specialize (H k Hk). lia.
Qed.

(** [info_pass] passes the gate with a JUST_HIT tip and its five compared
    values are numbers. *)
Lemma C3_witness :
  (exists m, notice (t_10h + 31000000) row_a sn_limit (Some ZT_TIP) info_pass
             = Ok (Some m)) <->
  in_band 1000000000 (total_market_value info_pass) 100000000000 = true /\
  in_band 3 (price info_pass) 20 = true /\
  in_band 5 (turnover_rate info_pass) 15 = true /\
  in_band 0.05 (amount_ratio info_pass) 0.15 = true /\
  PyFloat.le 0.005 (depth_ratio info_pass) = true /\
  (exists k, zt_keep_seconds info_pass = Ok k /\ 30 <= k).
Proof.
  apply (C3_strict_conjunction (t_10h + 31000000) row_a sn_limit (Some ZT_TIP)
           info_pass);
    [reflexivity | | | | | ];
    unfold PyFloat.is_nan; vm_compute; discriminate.
Defined.

(** [info_pass] is notified; each of six records that differ from it so that
    one rule fails and the other five still pass is not. *)
Example flip_one_rule :
  let decide i := notice (t_10h + 31000000) row_a sn_limit (Some ZT_TIP) i in
  let rules i := [market_cap_ok i; price_ok i; turnover_ok i; amount_ratio_ok i;
                  depth_ok i; hold_ok i] in
  decide info_pass
    = Ok (Some (render (t_10h + 31000000) row_a sn_limit (Some ZT_TIP) info_pass 31)) /\
  rules info_pass = [true; true; true; true; true; true] /\
  rules (sample_info 500000000 10 6 30000000 50000 31)
    = [false; true; true; true; true; true] /\
  decide (sample_info 500000000 10 6 30000000 50000 31) = Ok None /\
  rules (sample_info 5000000000 25 6 300000000 50000 31)
    = [true; false; true; true; true; true] /\
  decide (sample_info 5000000000 25 6 300000000 50000 31) = Ok None /\
  rules (sample_info 5000000000 10 20 300000000 50000 31)
    = [true; true; false; true; true; true] /\
  decide (sample_info 5000000000 10 20 300000000 50000 31) = Ok None /\
  rules (sample_info 5000000000 10 6 1000000000 50000 31)
    = [true; true; true; false; true; true] /\
  decide (sample_info 5000000000 10 6 1000000000 50000 31) = Ok None /\
  rules (sample_info 5000000000 10 6 300000000 100 31)
    = [true; true; true; true; false; true] /\
  decide (sample_info 5000000000 10 6 300000000 100 31) = Ok None /\
  rules (sample_info 5000000000 10 6 300000000 50000 10)
    = [true; true; true; true; true; false] /\
  decide (sample_info 5000000000 10 6 300000000 50000 10) = Ok None.
Proof.
  vm_compute. repeat split; reflexivity.
Qed.

(** * One row, one cycle, the session *)

Section Rows.

Variables (now : datetime) (sns : gmap string Snapshot).

(** After the tracker, the decision never raises: a tip that reads the
    hold time has just written the at-limit time. *)
Lemma notice_after_track (row : Row) (sn : Snapshot) (pre : option StockQuoteInfo) :
  exists d, notice now row sn (fst (track now row sn pre))
              (snd (track now row sn pre)) = Ok d.
Proof.
  pose proof (track_zt_written now row sn pre) as Hz.
  destruct (track now row sn pre) as [tip i]. simpl in *.
  unfold notice, trigger.
  destruct tip as [[ | | ]|]; simpl; try (eexists; reflexivity).
  - destruct Hz as [Hzt _]; [auto |].
    rewrite rule_chain_unfold. unfold zt_keep_seconds. rewrite Hzt.
    destruct (_ && _); [| eauto]. destruct (_ <? 30); eauto.
  - destruct Hz as [Hzt _]; [auto |].
    unfold zt_keep_seconds at 1. rewrite Hzt. simpl.
    destruct (_ <=? ZT_NOTICE_MAX_SECONDS); [| eauto].
    rewrite rule_chain_unfold. unfold zt_keep_seconds. rewrite Hzt.
    destruct (_ && _); [| eauto]. destruct (_ <? 30); eauto.
Qed.

(** A row whose snapshot is missing raises before anything is written. *)
Lemma next_row_missing (row : Row) (w : World) :
  sns !! row_stock_code row = None ->
  next_row now sns row w = (Raise (KeyError (row_stock_code row)), w).
Proof.
  intros H. unfold next_row, bind, lift, getitem. rewrite H. reflexivity.
Qed.

(** A row whose snapshot is there is tracked, and then notified or not. *)
Lemma next_row_present (row : Row) (sn : Snapshot) (w : World) :
  sns !! row_stock_code row = Some sn ->
  exists d,
    notice now row sn
      (fst (track now row sn (stock_code_info w !! row_stock_code row)))
      (snd (track now row sn (stock_code_info w !! row_stock_code row))) = Ok d /\
    next_row now sns row w =
      (Ok tt,
       match d with
       | Some m => mkWorld (stock_code_info (tracked now row sn w))
                     (console w ++ [SendText m; RichPrint m])
       | None => tracked now row sn w
       end).
Proof.
  intros H.
  destruct (notice_after_track row sn (stock_code_info w !! row_stock_code row))
    as [d Hd].
  exists d. split; [exact Hd |].
  unfold next_row, bind, lift, getitem, get_info, put_info, emit, ret, tracked.
  rewrite H. simpl.
  destruct (track now row sn (stock_code_info w !! row_stock_code row)) as [tip i].
  simpl in *. rewrite Hd. destruct d; reflexivity.
Qed.

(** The dictionary after a row: the tracker's record under the row's code,
    every other record as it was. Over the cycles, the records of one stock
    are therefore those of [feed]. *)
Lemma next_row_record (row : Row) (sn : Snapshot) (w : World) :
  sns !! row_stock_code row = Some sn ->
  stock_code_info (snd (next_row now sns row w)) =
    <[row_stock_code row :=
        snd (track now row sn (stock_code_info w !! row_stock_code row))]>
      (stock_code_info w).
Proof.
  intros H. destruct (next_row_present row sn w H) as (d & _ & ->).
  destruct d; reflexivity.
Qed.

Lemma for_each_app {A : Type} (body : A -> M unit) (l1 l2 : list A) (w : World) :
  for_each body (l1 ++ l2) w =
    match for_each body l1 w with
    | (Ok _, w') => for_each body l2 w'
    | (Raise e, w') => (Raise e, w')
    end.
Proof.
  revert w. induction l1 as [|x l1 IH]; intros w; simpl; [reflexivity |].
  unfold bind. destruct (body x w) as [[[]|e] w']; [apply IH | reflexivity].
Qed.

(** Rows whose snapshots are all there are all processed. *)
Lemma for_each_present (rows : list Row) (w : World) :
  Forall (fun x => is_Some (sns !! row_stock_code x)) rows ->
  fst (for_each (next_row now sns) rows w) = Ok tt.
Proof.
  intros H. revert w. induction H as [|x rows [sn Hx] _ IH]; intros w; simpl;
    [reflexivity |].
  unfold bind. destruct (next_row_present x sn w Hx) as (d & _ & ->). apply IH.
Qed.

(** The loop stops at the first row whose snapshot is missing. *)
Lemma for_each_first_missing (before after : list Row) (r : Row) (w : World) :
  Forall (fun x => is_Some (sns !! row_stock_code x)) before ->
  sns !! row_stock_code r = None ->
  for_each (next_row now sns) (before ++ r :: after) w =
    (Raise (KeyError (row_stock_code r)),
     snd (for_each (next_row now sns) before w)).
Proof.
  intros Hb Hr. rewrite for_each_app.
  pose proof (for_each_present before w Hb) as Hok.
  destruct (for_each (next_row now sns) before w) as [[[]|e] w']; simpl in *;
    [| discriminate].
  unfold bind. rewrite (next_row_missing r w' Hr). reflexivity.
Qed.

End Rows.

(** The collected map holds a snapshot for a requested code exactly when the
    fetch returned one. *)
Lemma get_snapshot_fast_lookup (fetch : gmap string Snapshot)
    (codes : list string) (c : string) :
  c ∈ codes -> get_snapshot_fast fetch codes !! c = fetch !! c.
Proof.
  unfold get_snapshot_fast.
  assert (Hgen : forall acc : gmap string Snapshot,
    foldl (fun sns code => match fetch !! code with
                           | Some sn => <[code := sn]> sns
                           | None => sns
                           end) acc codes !! c =
    if decide (c ∈ codes) then
      match fetch !! c with Some sn => Some sn | None => acc !! c end
    else acc !! c).
  { induction codes as [|k codes IH]; intros acc; cbn [foldl].
    - destruct (decide (c ∈ [])) as [Hc|]; [| reflexivity].
      destruct (not_elem_of_nil _ Hc).
    - rewrite IH.
      destruct (decide (c = k)) as [Heq | Hne].
      + subst k. destruct (fetch !! c) as [sn|] eqn:Ek.
        * rewrite lookup_insert_eq.
          destruct (decide (c ∈ codes)), (decide (c ∈ c :: codes)) as [|Hn];
            try reflexivity; exfalso; apply Hn, elem_of_cons; auto.
        * destruct (decide (c ∈ codes)), (decide (c ∈ c :: codes)) as [|Hn];
            try reflexivity; exfalso; apply Hn, elem_of_cons; auto.
      + assert (Hacc : (match fetch !! k with
                        | Some sn => <[k := sn]> acc
                        | None => acc
                        end) !! c = acc !! c).
        { destruct (fetch !! k); [apply lookup_insert_ne; congruence | reflexivity]. }
        rewrite Hacc.
        destruct (decide (c ∈ codes)) as [Hc|Hc],
                 (decide (c ∈ k :: codes)) as [Hk|Hk]; try reflexivity; exfalso.
        * apply Hk, elem_of_cons; auto.
        * apply elem_of_cons in Hk. tauto. }
  intros Hin. rewrite Hgen, decide_True by assumption.
  rewrite lookup_empty. destruct (fetch !! c); reflexivity.
Qed.

Section Cycles.

Variables (now : datetime) (quotes : list Row) (fetch : gmap string Snapshot).

Let sns : gmap string Snapshot :=
  get_snapshot_fast fetch (map row_stock_code (candidates quotes)).

Lemma next_for_each (w : World) :
  next now quotes fetch w = for_each (next_row now sns) (candidates quotes) w.
Proof.
  unfold next, sns. destruct (candidates quotes); reflexivity.
Qed.

Lemma next_skipping_for_each (w : World) :
  next_skipping now quotes fetch w =
    for_each (next_row_skipping now sns) (candidates quotes) w.
Proof.
  unfold next_skipping, sns. destruct (candidates quotes); reflexivity.
Qed.

Lemma sns_candidate (x : Row) :
  x ∈ candidates quotes -> sns !! row_stock_code x = fetch !! row_stock_code x.
Proof.
  intros Hx. apply get_snapshot_fast_lookup.
  apply list_elem_of_fmap. exists x. auto.
Qed.

Lemma sns_present (rows : list Row) :
  rows ⊆ candidates quotes ->
  Forall (fun x => is_Some (fetch !! row_stock_code x)) rows ->
  Forall (fun x => is_Some (sns !! row_stock_code x)) rows.
Proof.
  intros Hsub H. rewrite Forall_forall in *. intros x Hx.
  rewrite sns_candidate; [apply H, Hx |]. apply Hsub, Hx.
Qed.

Lemma for_each_skipping_same (rows : list Row) (w : World) :
  Forall (fun x => is_Some (sns !! row_stock_code x)) rows ->
  for_each (next_row_skipping now sns) rows w = for_each (next_row now sns) rows w.
Proof.
  intros H. revert w. induction H as [|x rows [sn Hx] _ IH]; intros w; simpl;
    [reflexivity |].
  unfold bind, next_row_skipping at 1. rewrite Hx.
  destruct (next_row now sns x w) as [[[]|e] w']; [apply IH | reflexivity].
Qed.

(** A cycle with a missing snapshot: the rows before the first missing one
    are processed, then the KeyError leaves [next]. *)
Lemma next_first_missing (before after : list Row) (r : Row) (w : World) :
  candidates quotes = before ++ r :: after ->
  Forall (fun x => is_Some (fetch !! row_stock_code x)) before ->
  fetch !! row_stock_code r = None ->
  fst (for_each (next_row now sns) before w) = Ok tt /\
  next now quotes fetch w =
    (Raise (KeyError (row_stock_code r)),
     snd (for_each (next_row now sns) before w)).
Proof.
  intros Hc Hb Hr.
  assert (Hb' : Forall (fun x => is_Some (sns !! row_stock_code x)) before).
  { apply sns_present; [| exact Hb]. rewrite Hc. intros x Hx.
    apply elem_of_app. auto. }
  assert (Hr' : sns !! row_stock_code r = None).
  { rewrite sns_candidate; [exact Hr |]. rewrite Hc.
    apply elem_of_app. right. apply elem_of_cons. auto. }
  split; [apply for_each_present, Hb' |].
  rewrite next_for_each, Hc. apply for_each_first_missing; assumption.
Qed.

(** A cycle with every snapshot there raises nothing and is the cycle of
    the skipping policy. *)
Lemma next_complete (w : World) :
  Forall (fun x => is_Some (fetch !! row_stock_code x)) (candidates quotes) ->
  fst (next now quotes fetch w) = Ok tt /\
  next now quotes fetch w = next_skipping now quotes fetch w.
Proof.
  intros H.
  assert (H' : Forall (fun x => is_Some (sns !! row_stock_code x)) (candidates quotes))
    by (apply sns_present; [intros x Hx; exact Hx | exact H]).
  rewrite next_for_each, next_skipping_for_each. split.
  - apply for_each_present, H'.
  - symmetry. apply for_each_skipping_same, H'.
Qed.

End Cycles.

(** An exception in a cycle leaves [start]. *)
Lemma start_raise (c : Cycle) (rest : list Cycle) (w : World) (e : exn) :
  cy_running c = true ->
  (forall w', fst (next (cy_now c) (cy_quotes c) (cy_fetch c) w') = Raise e) ->
  fst (start_loop (c :: rest) w) = Crashed e.
Proof.
  intros Hrun Hraise. simpl. rewrite Hrun. unfold TEST_MODE.
  rewrite orb_true_r. simpl. unfold bind, emit.
  specialize (Hraise (mkWorld (stock_code_info w) (console w ++ [Refresh (cy_now c)]))).
  destruct (next (cy_now c) (cy_quotes c) (cy_fetch c) _) as [[[]|e'] w'];
    simpl in Hraise; [discriminate |].
  injection Hraise as ->. reflexivity.
Qed.

(** Complete cycles keep the loop going until the running flag is down. *)
Lemma start_complete (cycles : list Cycle) :
  Forall cycle_complete cycles ->
  forall w, fst (start_loop cycles w) = if forallb cy_running cycles then Pending else Stopped.
Proof.
  induction 1 as [|c rest Hc _ IH]; intros w; simpl; [reflexivity |].
  unfold TEST_MODE. rewrite orb_true_r, andb_true_r.
  destruct (cy_running c); simpl; [| reflexivity].
  unfold bind, emit.
  pose proof (next_complete (cy_now c) (cy_quotes c) (cy_fetch c)
                (mkWorld (stock_code_info w) (console w ++ [Refresh (cy_now c)])) Hc)
    as [Hok _].
  destruct (next (cy_now c) (cy_quotes c) (cy_fetch c) _) as [[[]|e'] w'];
    simpl in Hok; [apply IH | discriminate].
Qed.

(** * The cycle and the session: claims *)

(** C8, as stated, fails. A scan of two candidates in which the fetch for
    the first failed: the cycle raises KeyError at the first candidate and
    never reaches the second, whose snapshot is there (the skipping policy
    would give it a record); and the error ends [start], although the
    running flag is still up and a second cycle is waiting. *)
Lemma C8_counterexample :
  fst (next t_10h quotes_ab fetch_b Strategy_init) = Raise (KeyError "600000") /\
  stock_code_info (snd (next t_10h quotes_ab fetch_b Strategy_init)) !! "000001" = None /\
  fst (next_skipping t_10h quotes_ab fetch_b Strategy_init) = Ok tt /\
  is_Some (stock_code_info (snd (next_skipping t_10h quotes_ab fetch_b Strategy_init))
             !! "000001") /\
  next t_10h quotes_ab fetch_b Strategy_init
    <> next_skipping t_10h quotes_ab fetch_b Strategy_init /\
  fst (start [mkCycle true t_10h quotes_ab fetch_b;
              mkCycle true (t_10h + 3000000) quotes_ab fetch_ab])
    = Crashed (KeyError "600000").
Proof.
  assert (H1 : fst (next t_10h quotes_ab fetch_b Strategy_init)
               = Raise (KeyError "600000")) by (vm_compute; reflexivity).
  assert (H3 : fst (next_skipping t_10h quotes_ab fetch_b Strategy_init) = Ok tt)
    by (vm_compute; reflexivity).
  split; [exact H1 |]. split; [vm_compute; reflexivity |].
  split; [exact H3 |]. split; [vm_compute; eexists; reflexivity |].
  split; [| vm_compute; reflexivity].
  intros Heq. rewrite Heq, H3 in H1. discriminate.
Qed.

(** C8, amended. When the snapshot of a candidate is missing from the
    collected map, the cycle stops at the first such candidate with a
    KeyError: the candidates before it have been processed, it and the later
    ones are not, and the error leaves the driver loop and ends the session.
    When no snapshot is missing, the cycle processes every candidate and
    raises nothing, and a session of such cycles ends only when the running
    flag is down. *)
Theorem C8_missing_snapshot_ends_session :
  (forall (now : datetime) (quotes : list Row) (fetch : gmap string Snapshot)
          (before after : list Row) (r : Row) (w : World) (rest : list Cycle),
     candidates quotes = before ++ r :: after ->
     Forall (fun x => is_Some (fetch !! row_stock_code x)) before ->
     fetch !! row_stock_code r = None ->
     let sns := get_snapshot_fast fetch (map row_stock_code (candidates quotes)) in
     fst (for_each (next_row now sns) before w) = Ok tt /\
     next now quotes fetch w =
       (Raise (KeyError (row_stock_code r)),
        snd (for_each (next_row now sns) before w)) /\
     fst (start_loop (mkCycle true now quotes fetch :: rest) w)
       = Crashed (KeyError (row_stock_code r))) /\
  (forall (now : datetime) (quotes : list Row) (fetch : gmap string Snapshot)
          (w : World),
     Forall (fun x => is_Some (fetch !! row_stock_code x)) (candidates quotes) ->
     fst (next now quotes fetch w) = Ok tt /\
     next now quotes fetch w = next_skipping now quotes fetch w) /\
  (forall (cycles : list Cycle) (w : World),
     Forall cycle_complete cycles ->
     fst (start_loop cycles w) = if forallb cy_running cycles then Pending else Stopped).
Proof.
  split; [| split].
  - intros now quotes fetch before after r w rest Hc Hb Hr sns.
    destruct (next_first_missing now quotes fetch before after r w Hc Hb Hr)
      as [Hok Hnext].
    repeat split; [exact Hok | exact Hnext |].
    apply start_raise; [reflexivity |]. simpl. intros w'.
    destruct (next_first_missing now quotes fetch before after r w' Hc Hb Hr)
      as [_ ->]. reflexivity.
  - intros now quotes fetch w H. apply next_complete, H.
  - intros cycles w H. apply start_complete, H.
Qed.

(** The scan of [row_b] then [row_a] with the fetch for 600000 failed: the
    first candidate is processed, the second raises, the session ends. *)
Lemma C8_witness :
  fst (start [mkCycle true t_10h [row_b; row_a] fetch_b;
              mkCycle false (t_10h + 3000000) quotes_ab fetch_ab])
    = Crashed (KeyError "600000") /\
  fst (start [mkCycle true t_10h quotes_ab fetch_ab;
              mkCycle false (t_10h + 3000000) quotes_ab fetch_ab])
    = Stopped.
Proof.
  split.
  - apply (proj1 C8_missing_snapshot_ends_session t_10h [row_b; row_a] fetch_b
             [row_b] [] row_a Strategy_init).
    + reflexivity.
    + repeat constructor. vm_compute. eexists. reflexivity.
    + vm_compute. reflexivity.
  - apply (proj2 (proj2 C8_missing_snapshot_ends_session)
             [mkCycle true t_10h quotes_ab fetch_ab;
              mkCycle false (t_10h + 3000000) quotes_ab fetch_ab] Strategy_init).
    repeat constructor; vm_compute; eexists; reflexivity.
Defined.

(** On a first sighting the decision is always to send nothing. *)
Lemma notice_first (now : datetime) (row : Row) (sn : Snapshot) :
  notice now row sn (fst (track now row sn None)) (snd (track now row sn None))
    = Ok None.
Proof.
  destruct (at_limit (sn_top_price sn) (sn_price sn)) eqn:Hlim.
  - rewrite (track_first_at_limit now row sn Hlim). simpl.
    unfold notice, trigger. simpl. rewrite rule_chain_unfold.
    unfold zt_keep_seconds, dt_sub. simpl. rewrite Z.sub_diag.
    destruct (_ && _); reflexivity.
  - pose proof (track_off_limit now row sn None Hlim) as Ht.
    destruct (track now row sn None) as [tip i]. simpl in *. subst tip.
    reflexivity.
Qed.

(** C9. A stock with no record yet: its row sends nothing, whatever the
    row and the snapshot hold. At the limit the tip is JUST_HIT and both time
    stamps are the clock time, so [zt_keep_seconds] is 0 and the hold rule
    fails. *)
Theorem C9_first_sighting_never_notifies (now : datetime)
    (sns : gmap string Snapshot) (row : Row) (w : World) :
  stock_code_info w !! row_stock_code row = None ->
  console (snd (next_row now sns row w)) = console w /\
  (forall sn, sns !! row_stock_code row = Some sn ->
     notice now row sn (fst (track now row sn None)) (snd (track now row sn None))
       = Ok None /\
     (at_limit (sn_top_price sn) (sn_price sn) = true ->
        fst (track now row sn None) = Some ZT_TIP /\
        latest_zt_dt (snd (track now row sn None)) = Some now /\
        latest_nzt_dt (snd (track now row sn None)) = now /\
        zt_keep_seconds (snd (track now row sn None)) = Ok 0 /\
        hold_ok (snd (track now row sn None)) = false)).
Proof.
  intros Hnew. split.
  - destruct (sns !! row_stock_code row) as [sn|] eqn:Hsn.
    + destruct (next_row_present now sns row sn w Hsn) as (d & Hd & ->).
      rewrite Hnew, notice_first in Hd. injection Hd as <-. reflexivity.
    + rewrite (next_row_missing now sns row w Hsn). reflexivity.
  - intros sn _. split; [apply notice_first |].
    intros Hlim. rewrite (track_first_at_limit now row sn Hlim). simpl.
    unfold hold_ok, zt_keep_seconds, dt_sub. simpl. rewrite Z.sub_diag.
    repeat split; reflexivity.
Qed.

(** A first sighting at the limit whose record passes the five market
    rules: the hold rule fails, nothing is printed or sent. *)
Lemma C9_witness :
  console (snd (next_row t_10h fetch_ab row_a Strategy_init)) = [] /\
  (let i := snd (track t_10h row_a sn_limit None) in
   [market_cap_ok i; price_ok i; turnover_ok i; amount_ratio_ok i; depth_ok i;
    hold_ok i] = [true; true; true; true; true; false]).
Proof.
  split; [| vm_compute; reflexivity].
  apply (C9_first_sighting_never_notifies t_10h fetch_ab row_a Strategy_init).
  reflexivity.
Defined.

(** C10. A new record has no at-limit time. The two tips that lead to a
    read of [zt_keep_seconds] have written the at-limit time just before; any
    other tip sends nothing without reading it, even on a record that has
    none; so the decision after the tracker always returns, and a row never
    raises the TypeError of a subtraction from [None]. *)
Theorem C10_keep_seconds_never_on_none (now : datetime)
    (sns : gmap string Snapshot) (row : Row) (sn : Snapshot)
    (pre : option StockQuoteInfo) (w : World) :
  latest_zt_dt (new_info now row sn) = None /\
  (fst (track now row sn pre) = Some ZT_TIP \/
   fst (track now row sn pre) = Some ZT_KEEP_TIP ->
     latest_zt_dt (snd (track now row sn pre)) = Some now /\
     exists k, zt_keep_seconds (snd (track now row sn pre)) = Ok k) /\
  (forall tip i, tip <> Some ZT_TIP -> tip <> Some ZT_KEEP_TIP ->
     notice now row sn tip i = Ok None) /\
  (exists d, notice now row sn (fst (track now row sn pre))
               (snd (track now row sn pre)) = Ok d) /\
  fst (next_row now sns row w) <> Raise TypeError.
Proof.
  split; [reflexivity |]. split; [| split; [| split]].
  - intros Htip. destruct (track_zt_written now row sn pre Htip) as [Hzt _].
    split; [exact Hzt |]. unfold zt_keep_seconds. rewrite Hzt. eauto.
  - intros tip i H1 H2. unfold notice, trigger.
    destruct tip as [[ | | ]|]; simpl; congruence.
  - apply notice_after_track.
  - destruct (sns !! row_stock_code row) as [sn'|] eqn:Hsn.
    + destruct (next_row_present now sns row sn' w Hsn) as (d & _ & ->).
      discriminate.
    + rewrite (next_row_missing now sns row w Hsn). discriminate.
Qed.

(** The record made below the limit has no at-limit time; the stock then
    hits the limit: the time is written and the hold time can be read. *)
Lemma C10_witness :
  latest_zt_dt info_below = None /\
  latest_zt_dt (snd (track (t_10h + 3000000) row_a sn_limit (Some info_below)))
    = Some (t_10h + 3000000) /\
  exists k, zt_keep_seconds
              (snd (track (t_10h + 3000000) row_a sn_limit (Some info_below))) = Ok k.
Proof.
  split; [reflexivity |].
  apply (proj1 (proj2 (C10_keep_seconds_never_on_none (t_10h + 3000000) fetch_ab
                         row_a sn_limit (Some info_below) Strategy_init))).
  left. reflexivity.
Defined.

(** * Further properties of the code *)

(** ** The hold time *)

Lemma td_seconds_div_mod (d : timedelta) :
  td_seconds d = (d / 1000000) mod 86400.
Proof.
  unfold td_seconds. Z.to_euclidean_division_equations. lia.
Qed.

(** X1. [zt_keep_seconds] counts whole seconds modulo one day: below a day
    it is the elapsed time with the microseconds cut off, and a day more
    between the two time stamps reads the same. *)
Theorem zt_keep_seconds_value (i : StockQuoteInfo) (zt : datetime) :
  latest_zt_dt i = Some zt ->
  zt_keep_seconds i = Ok (((zt - latest_nzt_dt i) / 1000000) mod 86400) /\
  (0 <= zt - latest_nzt_dt i < 86400000000 ->
     zt_keep_seconds i = Ok ((zt - latest_nzt_dt i) / 1000000)) /\
  zt_keep_seconds (set_latest_zt_dt i (zt + 86400000000)) = zt_keep_seconds i.
Proof.
  intros Hzt. unfold zt_keep_seconds, dt_sub. rewrite Hzt. simpl.
  rewrite !td_seconds_div_mod. repeat split.
  - intros Hd. f_equal. apply Z.mod_small.
    Z.to_euclidean_division_equations. lia.
  - f_equal. Z.to_euclidean_division_equations. lia.
Qed.

(** Held for 31 s: 31. Held for a day and 31 s: 31 again. *)
Lemma zt_keep_seconds_value_witness :
  zt_keep_seconds (sample_info 5000000000 10 6 300000000 50000 31) = Ok 31 /\
  zt_keep_seconds
    (set_latest_zt_dt (sample_info 5000000000 10 6 300000000 50000 31)
       (t_10h + 31 * 1000000 + 86400000000)) = Ok 31.
Proof.
  pose proof (zt_keep_seconds_value
                (sample_info 5000000000 10 6 300000000 50000 31)
                (t_10h + 31 * 1000000) eq_refl) as (_ & Hsmall & Hday).
  split.
  - rewrite Hsmall; [reflexivity | simpl; unfold t_10h; lia].
  - rewrite Hday. reflexivity.
Defined.

(** ** The time gate *)

Lemma zrange_in (n : nat) : forall start x,
  start <= x < start + Z.of_nat n -> In x (zrange n start).
Proof.
  induction n as [|n IH]; intros start x Hx; [lia |].
  cbn [zrange]. destruct (Z.eq_dec start x) as [-> | Hne]; [left; reflexivity |].
  right. apply IH. lia.
Qed.

(** At each of the 86400 seconds of a day, comparing the printed time with
    the two bounds gives what comparing the second does. *)
Lemma clock_agree_all :
  forallb clock_agree (zrange (Z.to_nat 86400) 0) = true.
Proof. vm_compute. reflexivity. Qed.

Lemma second_of_day_range (now : datetime) : 0 <= second_of_day now < 86400.
Proof.
  unfold second_of_day. Z.to_euclidean_division_equations. lia.
Qed.

(** The test on the printed time is the test on the second of the day that
    the loop of [start] uses. *)
Lemma Clock_next_text_seconds (now : datetime) :
  Clock_next_text now = Clock_next now.
Proof.
  unfold Clock_next_text, Clock_next, strftime_HMS.
  fold (second_of_day now).
  pose proof (second_of_day_range now) as Hr.
  pose proof clock_agree_all as Hall.
  rewrite forallb_forall in Hall.
  specialize (Hall (second_of_day now)).
  unfold clock_agree in Hall. apply Bool.eqb_prop. apply Hall.
  apply zrange_in. lia.
Qed.

(** X2. Clock.next, which compares the time printed as HH:MM:SS with
    '09:15:00' and '15:00:00', is true exactly from 09:15:00.000000 to
    15:00:00.999999 of the clock's day, both ends included, and depends on
    the time of day only. *)
Theorem Clock_next_window (now : datetime) :
  (Clock_next_text now = true <->
     33300000000 <= now mod 86400000000 < 54001000000) /\
  Clock_next_text (now + 86400000000) = Clock_next_text now.
Proof.
  rewrite !Clock_next_text_seconds. unfold Clock_next. split.
  - rewrite andb_true_iff, !Z.leb_le.
    Z.to_euclidean_division_equations. lia.
  - replace ((now + 86400000000) mod 86400000000) with (now mod 86400000000);
      [reflexivity |].
    Z.to_euclidean_division_equations. lia.
Qed.

(** The printed times at the two ends of the window and just outside. *)
Remark strftime_samples :
  strftime_HMS 33299999999 = "09:14:59" /\ Clock_next_text 33299999999 = false /\
  strftime_HMS 33300000000 = "09:15:00" /\ Clock_next_text 33300000000 = true /\
  strftime_HMS 54000999999 = "15:00:00" /\ Clock_next_text 54000999999 = true /\
  strftime_HMS 54001000000 = "15:00:01" /\ Clock_next_text 54001000000 = false.
Proof. vm_compute. repeat split; reflexivity. Qed.

(** ** The snapshot collector *)

Lemma get_snapshot_fast_fold (fetch : gmap string Snapshot) (codes : list string) :
  forall (acc : gmap string Snapshot) (c : string),
  foldl (fun sns code => match fetch !! code with
                         | Some sn => <[code := sn]> sns
                         | None => sns
                         end) acc codes !! c =
  if decide (c ∈ codes) then
    match fetch !! c with Some sn => Some sn | None => acc !! c end
  else acc !! c.
Proof.
  induction codes as [|k codes IH]; intros acc c; cbn [foldl].
  - destruct (decide (c ∈ [])) as [Hc|]; [| reflexivity].
    destruct (not_elem_of_nil _ Hc).
  - rewrite IH.
    assert (Hk : (match fetch !! k with
                  | Some sn => <[k := sn]> acc
                  | None => acc
                  end) !! c =
                 if decide (c = k) then
                   match fetch !! c with Some sn => Some sn | None => acc !! c end
                 else acc !! c).
    { destruct (decide (c = k)) as [-> | Hne].
      - destruct (fetch !! k); [apply lookup_insert_eq | reflexivity].
      - destruct (fetch !! k); [apply lookup_insert_ne; congruence | reflexivity]. }
    rewrite Hk.
    destruct (decide (c ∈ codes)) as [Hc|Hc],
             (decide (c ∈ k :: codes)) as [Hck|Hck],
             (decide (c = k)) as [Heq|Hne];
      try reflexivity; try (destruct (fetch !! c); reflexivity); exfalso.
    + apply Hck, elem_of_cons; auto.
    + apply Hck, elem_of_cons; auto.
    + apply elem_of_cons in Hck. tauto.
    + apply Hck, elem_of_cons; auto.
Qed.

(** X3. The collected map holds, for a requested code, what the fetch
    returned (nothing when it failed) and holds nothing for a code that was
    not requested. *)
Theorem get_snapshot_fast_spec (fetch : gmap string Snapshot)
    (codes : list string) (c : string) :
  get_snapshot_fast fetch codes !! c =
    if decide (c ∈ codes) then fetch !! c else None.
Proof.
  unfold get_snapshot_fast. rewrite get_snapshot_fast_fold, lookup_empty.
  destruct (decide (c ∈ codes)); [destruct (fetch !! c) |]; reflexivity.
Qed.

(** ** What the decision can raise, and what a message says *)

(** X5. The decision never divides by zero and never raises a KeyError,
    for any record and tip. It raises the TypeError of a missing at-limit
    time exactly when that time is [None] and the hold time is read: for a
    HOLDING tip at the gate, for a JUST_HIT tip after the five market rules
    have passed. *)
Theorem notice_raises (now : datetime) (row : Row) (sn : Snapshot)
    (tip : option Tip) (i : StockQuoteInfo) :
  notice now row sn tip i <> Raise ZeroDivisionError /\
  (forall key, notice now row sn tip i <> Raise (KeyError key)) /\
  (notice now row sn tip i = Raise TypeError <->
     latest_zt_dt i = None /\
     (tip = Some ZT_KEEP_TIP \/
      (tip = Some ZT_TIP /\
       market_cap_ok i && price_ok i && turnover_ok i && amount_ratio_ok i
       && depth_ok i = true))).
Proof.
  unfold notice, trigger. rewrite rule_chain_unfold. unfold zt_keep_seconds.
  destruct tip as [[ | | ]|]; simpl;
    destruct (latest_zt_dt i) as [zt|]; simpl;
    repeat match goal with
           | |- context [if ?b then _ else _] => destruct b; simpl
           end;
    (split; [discriminate |]); (split; [discriminate |]);
    (split; [try discriminate; intros _ | intros [Hn Ht]]);
    try discriminate; try reflexivity; auto;
    try (destruct Ht as [Ht | [Ht Hr]]; discriminate).
Qed.

(** What a decision to send says about the record and the tip. *)
Lemma notice_some (now : datetime) (row : Row) (sn : Snapshot)
    (tip : option Tip) (i : StockQuoteInfo) (m : Msg) :
  notice now row sn tip i = Ok (Some m) ->
  exists k, zt_keep_seconds i = Ok k /\ 30 <= k /\
            m = render now row sn tip i k /\
            (tip = Some ZT_TIP \/ (tip = Some ZT_KEEP_TIP /\ k <= 33)) /\
            price_ok i = true.
Proof.
  intros H.
  assert (Hgate : trigger tip i = Ok true).
  { unfold notice in H. destruct (trigger tip i) as [[ | ]|e]; simpl in H;
      [reflexivity | discriminate | discriminate]. }
  unfold notice in H. rewrite Hgate in H. simpl in H.
  rewrite rule_chain_unfold in H.
  destruct (market_cap_ok i && price_ok i && turnover_ok i && amount_ratio_ok i
            && depth_ok i) eqn:Hr; [| discriminate].
  destruct (zt_keep_seconds i) as [k|e] eqn:Hk; [| discriminate].
  destruct (Z.ltb_spec k 30); [discriminate |].
  injection H as <-. exists k. repeat split; auto.
  - apply trigger_true in Hgate. destruct Hgate as [Ht | [Ht (k' & Hk' & Hle)]];
      [auto |]. right. split; [exact Ht |].
    rewrite Hk in Hk'. injection Hk' as <-. exact Hle.
  - rewrite !andb_true_iff in Hr. tauto.
Qed.

(** X6. A row prints nothing, or it sends one message and echoes it. It
    sends only for a stock that already had a record and is at the limit
    with a price in [3, 20]: JUST_HIT when the price is above the recorded
    one, HOLDING (and then held at most 33 s) when it is equal. The message
    carries the clock time, the current price and bid sizes, a hold time of
    at least 30 s counted from the record's off-limit time, and the record's
    own market fields. *)
Theorem next_row_message (now : datetime) (sns : gmap string Snapshot)
    (row : Row) (w : World) :
  console (snd (next_row now sns row w)) = console w \/
  exists sn i m,
    sns !! row_stock_code row = Some sn /\
    stock_code_info w !! row_stock_code row = Some i /\
    console (snd (next_row now sns row w)) = console w ++ [SendText m; RichPrint m] /\
    at_limit (sn_top_price sn) (sn_price sn) = true /\
    in_band 3 (sn_price sn) 20 = true /\
    (msg_tip m = Some ZT_TIP /\ PyFloat.gt (sn_price sn) (price i) = true \/
     msg_tip m = Some ZT_KEEP_TIP /\ PyFloat.eq (sn_price sn) (price i) = true /\
       msg_zt_keep_seconds m <= 33) /\
    30 <= msg_zt_keep_seconds m < 86400 /\
    msg_zt_keep_seconds m = td_seconds (now - latest_nzt_dt i) /\
    msg_dt m = now /\ msg_price m = sn_price sn /\ msg_buy_list m = buy_list sn /\
    msg_total_market_value m = total_market_value i /\
    msg_turnover_rate m = turnover_rate i /\
    msg_trading_volume m = trading_volume i /\
    msg_trading_amount m = trading_amount i.
Proof.
  destruct (sns !! row_stock_code row) as [sn|] eqn:Hsn;
    [| left; rewrite (next_row_missing now sns row w Hsn); reflexivity].
  destruct (next_row_present now sns row sn w Hsn) as (d & Hd & ->).
  destruct d as [m|]; [| left; reflexivity].
  destruct (stock_code_info w !! row_stock_code row) as [i|] eqn:Hi;
    [| rewrite notice_first in Hd; discriminate].
  right. exists sn, i, m.
  destruct (notice_some _ _ _ _ _ _ Hd) as (k & Hk & H30 & -> & Htip & Hprice).
  pose proof (track_price now row sn (Some i)) as Hp.
  pose proof (track_existing_fields now row sn i) as Hf. simpl in Hf.
  destruct Hf as (_ & _ & _ & _ & Hf1 & _ & Hf2 & Hf3 & Hf4 & _).
  assert (Hlim : at_limit (sn_top_price sn) (sn_price sn) = true).
  { destruct (at_limit (sn_top_price sn) (sn_price sn)) eqn:E; [reflexivity |].
    rewrite (track_off_limit now row sn (Some i) E) in Htip.
    destruct Htip as [? | [? _]]; discriminate. }
  assert (Hz : latest_zt_dt (snd (track now row sn (Some i))) = Some now /\
               latest_nzt_dt (snd (track now row sn (Some i))) = latest_nzt_dt i).
  { apply track_zt_written. tauto. }
  destruct Hz as [Hzt Hnzt].
  assert (Hkv : k = td_seconds (now - latest_nzt_dt i)).
  { unfold zt_keep_seconds in Hk. rewrite Hzt, Hnzt in Hk.
    injection Hk as <-. reflexivity. }
  assert (Hband : in_band 3 (sn_price sn) 20 = true).
  { destruct (rules_are_bands (snd (track now row sn (Some i))))
      as (_ & Hb & _).
    rewrite Hp in Hb. rewrite <- Hb; [exact Hprice |].
    apply (at_limit_not_nan _ _ Hlim). }
  assert (Hcmp :
    fst (track now row sn (Some i)) = Some ZT_TIP /\
      PyFloat.gt (sn_price sn) (price i) = true \/
    fst (track now row sn (Some i)) = Some ZT_KEEP_TIP /\
      PyFloat.eq (sn_price sn) (price i) = true).
  { clear - Hlim Htip. unfold track, classify in *. rewrite Hlim in *. simpl in *.
    destruct (PyFloat.gt (sn_price sn) (price i)); simpl in *; [auto |].
    destruct (PyFloat.eq (sn_price sn) (price i)); simpl in *; [auto |].
    destruct Htip as [? | [? _]]; discriminate. }
  simpl. repeat split; auto.
  - destruct Hcmp as [[Ht Hc] | [Ht Hc]]; [left; auto |].
    right. repeat split; auto.
    destruct Htip as [Ht' | [_ Hle]]; [congruence | exact Hle].
  - rewrite Hkv. apply td_seconds_range.
Qed.

(** ** The tracker, further *)

(** Off NaN on the left, neither greater nor equal means less, unless the
    right operand is a NaN. *)
Lemma not_gt_not_eq (x y : float) :
  ~ PyFloat.is_nan x ->
  (PyFloat.gt x y = false /\ PyFloat.eq x y = false <->
   PyFloat.lt x y = true \/ PyFloat.is_nan y).
Proof.
  unfold PyFloat.is_nan, PyFloat.gt, PyFloat.eq, PyFloat.lt. intros Hx.
  rewrite !FloatAxioms.ltb_spec, FloatAxioms.eqb_spec. unfold SFltb, SFeqb.
  rewrite (SFcompare_swap (Prim2SF x) (Prim2SF y)).
  destruct (Prim2SF y) as [s|s| |s m e] eqn:Ey.
  - destruct (SFcompare_total (Prim2SF x) (S754_zero s) Hx ltac:(discriminate))
      as [c ->].
    destruct c; simpl; split; intros H; try tauto; try (destruct H; discriminate);
      try (destruct H as [H | H]; discriminate).
  - destruct (SFcompare_total (Prim2SF x) (S754_infinity s) Hx ltac:(discriminate))
      as [c ->].
    destruct c; simpl; split; intros H; try tauto; try (destruct H; discriminate);
      try (destruct H as [H | H]; discriminate).
  - rewrite SFcompare_nan by (right; reflexivity). simpl. tauto.
  - destruct (SFcompare_total (Prim2SF x) (S754_finite s m e) Hx ltac:(discriminate))
      as [c ->].
    destruct c; simpl; split; intros H; try tauto; try (destruct H; discriminate);
      try (destruct H as [H | H]; discriminate).
Qed.

(** X7. For a stock with a record and a price at the limit, the tip is BREAK
    exactly when the price is below the recorded price or the recorded price
    is a NaN; otherwise it is JUST_HIT or HOLDING. *)
Theorem break_iff_lower_or_nan (now : datetime) (row : Row) (sn : Snapshot)
    (i : StockQuoteInfo) :
  at_limit (sn_top_price sn) (sn_price sn) = true ->
  (fst (track now row sn (Some i)) = Some ZT_BREAK_TIP <->
   PyFloat.lt (sn_price sn) (price i) = true \/ PyFloat.is_nan (price i)) /\
  (fst (track now row sn (Some i)) <> Some ZT_BREAK_TIP ->
   fst (track now row sn (Some i)) = Some ZT_TIP \/
   fst (track now row sn (Some i)) = Some ZT_KEEP_TIP).
Proof.
  intros Hlim.
  destruct (at_limit_not_nan _ _ Hlim) as [_ Hnan].
  pose proof (not_gt_not_eq (sn_price sn) (price i) Hnan) as Hcmp.
  unfold track, classify. rewrite Hlim. simpl.
  destruct (PyFloat.gt (sn_price sn) (price i)); simpl.
  - split; [| auto]. split; [discriminate |].
    intros H. apply Hcmp in H. destruct H; discriminate.
  - destruct (PyFloat.eq (sn_price sn) (price i)); simpl.
    + split; [| auto]. split; [discriminate |].
      intros H. apply Hcmp in H. destruct H; discriminate.
    + split; [| congruence]. split; [| reflexivity].
      intros _. apply Hcmp. auto.
Qed.

Lemma break_iff_lower_or_nan_witness :
  fst (track (t_10h + 6000000) row_a sn_wobble (Some info_limit)) = Some ZT_BREAK_TIP /\
  fst (track (t_10h + 6000000) row_a sn_limit
         (Some (set_price info_limit PrimFloat.nan))) = Some ZT_BREAK_TIP.
Proof.
  split.
  - apply (break_iff_lower_or_nan (t_10h + 6000000) row_a sn_wobble info_limit);
      [reflexivity |]. left. reflexivity.
  - apply (break_iff_lower_or_nan (t_10h + 6000000) row_a sn_limit
             (set_price info_limit PrimFloat.nan)); [reflexivity |].
    right. vm_compute. reflexivity.
Defined.

Lemma off_limit_restarts (now : datetime) (row : Row) (sn : Snapshot)
    (pre : option StockQuoteInfo) :
  fst (track now row sn pre) = None \/
  fst (track now row sn pre) = Some ZT_BREAK_TIP ->
  latest_nzt_dt (snd (track now row sn pre)) = now /\
  latest_zt_dt (snd (track now row sn pre)) =
    match pre with Some i => latest_zt_dt i | None => None end.
Proof.
  unfold track, classify.
  destruct (at_limit (sn_top_price sn) (sn_price sn)); destruct pre as [i|]; simpl;
    repeat match goal with |- context [if ?b then _ else _] => destruct b end;
    simpl; intros [H | H]; try discriminate; auto.
Qed.

Lemma feed_hold_from (obs : list Sighting) :
  forall i : StockQuoteInfo,
  Forall (fun r => fst r = Some ZT_TIP \/ fst r = Some ZT_KEEP_TIP)
    (feed obs (Some i)) ->
  Forall2 (fun o r =>
             latest_nzt_dt (snd r) = latest_nzt_dt i /\
             latest_zt_dt (snd r) = Some (sg_now o) /\
             zt_keep_seconds (snd r)
               = Ok (td_seconds (sg_now o - latest_nzt_dt i)))
    obs (feed obs (Some i)).
Proof.
  induction obs as [|o rest IH]; intros i H; simpl in *; [constructor |].
  inversion H as [|r rs Hr Hrest]; subst.
  destruct (track_zt_written (sg_now o) (sg_row o) (sg_sn o) (Some i) Hr)
    as [Hzt Hnzt].
  constructor.
  - unfold zt_keep_seconds, dt_sub. rewrite Hzt, Hnzt. auto.
  - specialize (IH _ Hrest). rewrite Hnzt in IH. exact IH.
Qed.

(** X8. The hold time is counted from the last sighting that was off the
    limit or a BREAK: such a sighting sets the off-limit time to the clock
    time and leaves the at-limit time alone, and while the stock then gets
    only JUST_HIT and HOLDING tips the off-limit time stays, the at-limit
    time follows the clock, and [zt_keep_seconds] reads the seconds between
    the two. *)
Theorem hold_counted_from_last_off (now : datetime) (row : Row) (sn : Snapshot)
    (pre : option StockQuoteInfo) (obs : list Sighting) :
  fst (track now row sn pre) = None \/
  fst (track now row sn pre) = Some ZT_BREAK_TIP ->
  Forall (fun r => fst r = Some ZT_TIP \/ fst r = Some ZT_KEEP_TIP)
    (feed obs (Some (snd (track now row sn pre)))) ->
  latest_nzt_dt (snd (track now row sn pre)) = now /\
  latest_zt_dt (snd (track now row sn pre)) =
    match pre with Some i => latest_zt_dt i | None => None end /\
  Forall2 (fun o r =>
             latest_nzt_dt (snd r) = now /\
             latest_zt_dt (snd r) = Some (sg_now o) /\
             zt_keep_seconds (snd r) = Ok (td_seconds (sg_now o - now)))
    obs (feed obs (Some (snd (track now row sn pre)))).
Proof.
  intros Hoff Hrun.
  destruct (off_limit_restarts now row sn pre Hoff) as [Hnzt Hzt].
  repeat split; [exact Hnzt | exact Hzt |].
  pose proof (feed_hold_from obs _ Hrun) as H. rewrite Hnzt in H. exact H.
Qed.

(** Off the limit at 10:00:00, at the limit 3 s and 43 s later: the hold
    times read 3 and 43. *)
Lemma hold_counted_from_last_off_witness :
  map (fun r => zt_keep_seconds (snd r))
    (feed [mkSighting (t_10h + 3000000) row_a sn_limit;
           mkSighting (t_10h + 43000000) row_a sn_limit] (Some info_below))
    = [Ok 3; Ok 43] /\
  Forall2 (fun o r =>
             latest_nzt_dt (snd r) = t_10h /\
             latest_zt_dt (snd r) = Some (sg_now o) /\
             zt_keep_seconds (snd r) = Ok (td_seconds (sg_now o - t_10h)))
    [mkSighting (t_10h + 3000000) row_a sn_limit;
     mkSighting (t_10h + 43000000) row_a sn_limit]
    (feed [mkSighting (t_10h + 3000000) row_a sn_limit;
           mkSighting (t_10h + 43000000) row_a sn_limit] (Some info_below)).
Proof.
  split; [vm_compute; reflexivity |].
  apply (hold_counted_from_last_off t_10h row_a sn_below None
           [mkSighting (t_10h + 3000000) row_a sn_limit;
            mkSighting (t_10h + 43000000) row_a sn_limit]).
  - left. reflexivity.
  - constructor; [left; reflexivity |].
    constructor; [right; reflexivity | constructor].
Defined.


(** ** Cycles and sessions, further *)

Lemma for_each_preserves {A : Type} (P : World -> Prop) (body : A -> M unit)
    (l : list A) :
  (forall x w, x ∈ l -> P w -> P (snd (body x w))) ->
  forall w, P w -> P (snd (for_each body l w)).
Proof.
  induction l as [|x l IH]; intros Hbody w Hw; simpl; [exact Hw |].
  unfold bind.
  pose proof (Hbody x w ltac:(apply elem_of_cons; auto) Hw) as Hx.
  destruct (body x w) as [[[]|e] w']; simpl in *; [| exact Hx].
  apply IH; [| exact Hx].
  intros y w0 Hy. apply Hbody. apply elem_of_cons. auto.
Qed.

Lemma start_loop_preserves (P : World -> Prop) (cycles : list Cycle) :
  (forall w evs, P w -> P (mkWorld (stock_code_info w) (console w ++ evs))) ->
  (forall c w, c ∈ cycles -> P w ->
     P (snd (next (cy_now c) (cy_quotes c) (cy_fetch c) w))) ->
  forall w, P w -> P (snd (start_loop cycles w)).
Proof.
  intros Hev. induction cycles as [|c rest IH]; intros Hnext w Hw; simpl;
    [exact Hw |].
  destruct (cy_running c && (Clock_next (cy_now c) || TEST_MODE)); simpl;
    [| apply Hev, Hw].
  unfold bind, emit.
  pose proof (Hnext c _ ltac:(apply elem_of_cons; auto)
                (Hev w [Refresh (cy_now c)] Hw)) as Hc.
  destruct (next (cy_now c) (cy_quotes c) (cy_fetch c) _) as [[[]|e] w'];
    simpl in *; [| exact Hc].
  apply IH; [| exact Hc].
  intros c' w0 Hc'. apply Hnext. apply elem_of_cons. auto.
Qed.

Lemma next_preserves (P : World -> Prop) (now : datetime) (quotes : list Row)
    (fetch : gmap string Snapshot) :
  (forall sns row w, row ∈ candidates quotes -> P w ->
     P (snd (next_row now sns row w))) ->
  forall w, P w -> P (snd (next now quotes fetch w)).
Proof.
  intros H w Hw. rewrite next_for_each.
  apply for_each_preserves; [| exact Hw].
  intros x w0 Hx. apply H, Hx.
Qed.

(** The dictionary after a row, in every case. *)
Lemma next_row_store (now : datetime) (sns : gmap string Snapshot) (row : Row)
    (w : World) :
  stock_code_info (snd (next_row now sns row w)) =
    match sns !! row_stock_code row with
    | Some sn =>
        <[row_stock_code row :=
            snd (track now row sn (stock_code_info w !! row_stock_code row))]>
          (stock_code_info w)
    | None => stock_code_info w
    end.
Proof.
  destruct (sns !! row_stock_code row) as [sn|] eqn:Hsn.
  - apply next_row_record, Hsn.
  - rewrite (next_row_missing now sns row w Hsn). reflexivity.
Qed.

Lemma same_static_refl (i : StockQuoteInfo) : same_static i i.
Proof. unfold same_static. repeat split; reflexivity. Qed.

Lemma same_static_trans (i j k : StockQuoteInfo) :
  same_static i j -> same_static j k -> same_static i k.
Proof.
  unfold same_static. intros Hij Hjk.
  destruct Hij as (?&?&?&?&?&?&?&?&?&?&?&?&?).
  destruct Hjk as (?&?&?&?&?&?&?&?&?&?&?&?&?).
  repeat split; congruence.
Qed.

Lemma next_row_persists (now : datetime) (sns : gmap string Snapshot) (row : Row)
    (w : World) (c : string) (i : StockQuoteInfo) :
  (exists j, stock_code_info w !! c = Some j /\ same_static i j) ->
  exists j, stock_code_info (snd (next_row now sns row w)) !! c = Some j /\
            same_static i j.
Proof.
  intros (j & Hj & Hs). rewrite next_row_store.
  destruct (sns !! row_stock_code row) as [sn|]; [| eauto].
  destruct (decide (row_stock_code row = c)) as [-> | Hne].
  - rewrite lookup_insert_eq, Hj. eexists. split; [reflexivity |].
    apply (same_static_trans i j); [exact Hs |].
    apply (track_existing_fields now row sn j).
  - rewrite lookup_insert_ne by exact Hne. eauto.
Qed.

(** X9. Nothing is ever evicted or refreshed: over any session, a stock
    that has a record keeps one, with the code, the name, the two limit
    prices and every market and liquidity field it had, whatever the cycles
    bring and however the session ends. *)
Theorem records_persist (cycles : list Cycle) (w : World) (c : string)
    (i : StockQuoteInfo) :
  stock_code_info w !! c = Some i ->
  exists j, stock_code_info (snd (start_loop cycles w)) !! c = Some j /\
            same_static i j.
Proof.
  intros Hi.
  apply (start_loop_preserves
           (fun w' => exists j, stock_code_info w' !! c = Some j /\ same_static i j)).
  - intros w' evs H. exact H.
  - intros cy w' _.
    apply (next_preserves
             (fun w' => exists j, stock_code_info w' !! c = Some j /\ same_static i j)).
    intros sns row w0 _. apply next_row_persists.
  - exists i. split; [exact Hi | apply same_static_refl].
Qed.

Lemma records_persist_witness :
  exists j,
    stock_code_info
      (snd (start_loop [mkCycle true (t_10h + 31000000) [row_a'; row_b]
                          (<["600000" := sn_hot]> ∅)]
              (mkWorld (<["600000" := info_below]> ∅) []))) !! "600000" = Some j /\
    same_static info_below j.
Proof.
  apply records_persist. vm_compute. reflexivity.
Defined.

Lemma track_stock_code (now : datetime) (row : Row) (sn : Snapshot)
    (pre : option StockQuoteInfo) :
  stock_code (snd (track now row sn pre)) =
    match pre with Some i => stock_code i | None => row_stock_code row end.
Proof.
  unfold track, classify.
  destruct pre; simpl;
    repeat match goal with |- context [if ?b then _ else _] => destruct b end;
    reflexivity.
Qed.

Lemma next_row_keyed (now : datetime) (sns : gmap string Snapshot) (row : Row)
    (w : World) :
  keyed (stock_code_info w) -> keyed (stock_code_info (snd (next_row now sns row w))).
Proof.
  intros Hk. rewrite next_row_store.
  destruct (sns !! row_stock_code row) as [sn|]; [| exact Hk].
  intros c i. destruct (decide (row_stock_code row = c)) as [<- | Hne].
  - rewrite lookup_insert_eq. intros [= <-]. rewrite track_stock_code.
    destruct (stock_code_info w !! row_stock_code row) as [j|] eqn:Hj;
      [apply Hk, Hj | reflexivity].
  - rewrite lookup_insert_ne by exact Hne. apply Hk.
Qed.

(** X10. In every strategy that [start] can reach, each record sits under
    its own stock code. *)
Theorem start_keyed (cycles : list Cycle) :
  keyed (stock_code_info (snd (start cycles))).
Proof.
  unfold start.
  apply (start_loop_preserves (fun w => keyed (stock_code_info w))).
  - intros w evs H. exact H.
  - intros c w _. apply (next_preserves (fun w => keyed (stock_code_info w))).
    intros sns row w0 _. apply next_row_keyed.
  - intros c i. unfold Strategy_init. simpl. rewrite lookup_empty. discriminate.
Qed.

(** After a cycle that gave 600000 and 000001 their records, the record
    under 000001 has the code 000001. *)
Lemma start_keyed_witness :
  stock_code (snd (track t_10h row_b sn_limit None)) = "000001".
Proof.
  apply (start_keyed [mkCycle true t_10h quotes_ab fetch_ab] "000001").
  vm_compute. reflexivity.
Defined.

(** X11. A cycle touches the records of its candidates only: a scan without
    candidates changes nothing and prints nothing, and the record of a code
    that is no candidate's code is the same after the cycle, whether the
    cycle returns or raises. *)
Theorem next_frame (now : datetime) (quotes : list Row)
    (fetch : gmap string Snapshot) (w : World) :
  (Forall (fun r => is_candidate r = false) quotes ->
     next now quotes fetch w = (Ok tt, w)) /\
  (forall c, Forall (fun r => row_stock_code r <> c) (candidates quotes) ->
     stock_code_info (snd (next now quotes fetch w)) !! c = stock_code_info w !! c).
Proof.
  split.
  - intros H. unfold next.
    assert (Hc : candidates quotes = []).
    { unfold candidates. induction H as [|r rest Hr _ IH]; [reflexivity |].
      cbn [filter]. unfold filter, list_filter. simpl.
      destruct (decide (is_candidate r)) as [Hd|Hd]; [| exact IH].
      rewrite Hr in Hd. destruct Hd. }
    rewrite Hc. reflexivity.
  - intros c Hc.
    apply (next_preserves
             (fun w' => stock_code_info w' !! c = stock_code_info w !! c));
      [| reflexivity].
    intros sns row w0 Hrow Hw0. rewrite next_row_store.
    destruct (sns !! row_stock_code row); [| exact Hw0].
    rewrite lookup_insert_ne; [exact Hw0 |].
    rewrite Forall_forall in Hc. apply Hc. exact Hrow.
Qed.

Lemma next_frame_witness :
  next t_10h [mkRow "600000" "PFYH" Dash 5000000000 4000000000;
              mkRow "000001" "PAYH" (Num 8) 8000000000 7000000000;
              mkRow "000002" "WKA" (Num PrimFloat.nan) 8000000000 7000000000]
    fetch_ab Strategy_init = (Ok tt, Strategy_init) /\
  stock_code_info (snd (next t_10h quotes_ab fetch_b
                          (mkWorld (<["300001" := info_below]> ∅) []))) !! "300001"
    = Some info_below.
Proof.
  split.
  - apply (proj1 (next_frame t_10h _ fetch_ab Strategy_init)).
    repeat constructor.
  - rewrite (proj2 (next_frame t_10h quotes_ab fetch_b
                      (mkWorld (<["300001" := info_below]> ∅) [])) "300001").
    + apply lookup_insert_eq.
    + vm_compute. repeat constructor; discriminate.
Defined.

(** The console after a row: nothing new, or one message sent and echoed. *)
Lemma next_row_console (now : datetime) (sns : gmap string Snapshot) (row : Row)
    (w : World) :
  exists ms, console (snd (next_row now sns row w)) = console w ++ echo_pairs ms /\
             (length ms <= 1)%nat.
Proof.
  destruct (sns !! row_stock_code row) as [sn|] eqn:Hsn.
  - destruct (next_row_present now sns row sn w Hsn) as (d & _ & ->).
    destruct d as [m|].
    + exists [m]. split; [reflexivity | simpl; lia].
    + exists []. split; [simpl; rewrite app_nil_r; reflexivity | simpl; lia].
  - rewrite (next_row_missing now sns row w Hsn).
    exists []. split; [simpl; rewrite app_nil_r; reflexivity | simpl; lia].
Qed.

Lemma echo_pairs_app (ms1 ms2 : list Msg) :
  echo_pairs (ms1 ++ ms2) = echo_pairs ms1 ++ echo_pairs ms2.
Proof. unfold echo_pairs. apply flat_map_app. Qed.

Lemma for_each_console (now : datetime) (sns : gmap string Snapshot)
    (rows : list Row) :
  forall w, exists ms,
    console (snd (for_each (next_row now sns) rows w)) = console w ++ echo_pairs ms /\
    (length ms <= length rows)%nat.
Proof.
  induction rows as [|r rows IH]; intros w; simpl.
  - exists []. split; [simpl; rewrite app_nil_r; reflexivity | simpl; lia].
  - unfold bind.
    destruct (next_row_console now sns r w) as (ms1 & H1 & L1).
    destruct (next_row now sns r w) as [[[]|e] w'] eqn:Hr; simpl in H1.
    + destruct (IH w') as (ms2 & H2 & L2).
      exists (ms1 ++ ms2). rewrite H2, H1, echo_pairs_app, <- app_assoc.
      split; [reflexivity |]. rewrite length_app. lia.
    + exists ms1. simpl. split; [exact H1 | lia].
Qed.

(** X12. What a session prints: for each cycle it enters, in order, the
    refresh line with the cycle's clock time, then each message sent and at
    once echoed, at most one per candidate; and the end line last, exactly
    when the loop ended by its test. A crash prints no end line, and a
    session still running has printed for every cycle. *)
Theorem session_console (cycles : list Cycle) :
  forall w, exists ran : list (datetime * list Msg),
    console (snd (start_loop cycles w)) =
      console w ++ flat_map cycle_lines ran
      ++ match fst (start_loop cycles w) with
         | Stopped => [MonitorEnd]
         | _ => []
         end /\
    Forall2 (fun r c => fst r = cy_now c /\
                        (length (snd r) <= length (candidates (cy_quotes c)))%nat)
      ran (take (length ran) cycles) /\
    (fst (start_loop cycles w) = Pending -> length ran = length cycles).
Proof.
  induction cycles as [|c rest IH]; intros w; simpl.
  - exists []. simpl. rewrite app_nil_r.
    split; [reflexivity |]. split; [constructor | reflexivity].
  - destruct (cy_running c && (Clock_next (cy_now c) || TEST_MODE)); simpl.
    + unfold bind, emit. rewrite next_for_each.
      set (w1 := mkWorld (stock_code_info w) (console w ++ [Refresh (cy_now c)])).
      destruct (for_each_console (cy_now c)
                  (get_snapshot_fast (cy_fetch c)
                     (map row_stock_code (candidates (cy_quotes c))))
                  (candidates (cy_quotes c)) w1) as (ms & Hms & Hlen1).
      destruct (for_each _ _ w1) as [[[]|e] w'] eqn:Hf; simpl in Hms.
      * destruct (IH w') as (ran & Hran & Hpre & Hlen).
        exists ((cy_now c, ms) :: ran). rewrite Hran, Hms. simpl.
        rewrite <- !app_assoc. simpl.
        split; [reflexivity |]. split.
        -- constructor; [split; [reflexivity | exact Hlen1] | exact Hpre].
        -- intros Hp. rewrite (Hlen Hp). reflexivity.
      * exists [(cy_now c, ms)]. simpl. rewrite Hms, !app_nil_r, <- app_assoc.
        split; [reflexivity |]. split; [| discriminate].
        constructor; [split; [reflexivity | exact Hlen1] |].
        rewrite take_0. constructor.
    + exists []. simpl.
      split; [reflexivity |]. split; [constructor | discriminate].
Qed.

(** ** A session seen from one stock *)

Lemma feed_end_app (l1 l2 : list Sighting) :
  forall pre, feed_end (l1 ++ l2) pre = feed_end l2 (feed_end l1 pre).
Proof.
  induction l1 as [|o l1 IH]; intros pre; simpl; [reflexivity | apply IH].
Qed.

Lemma feed_end_last (obs : list Sighting) :
  forall pre,
  feed_end obs pre = List.last (map (fun r => Some (snd r)) (feed obs pre)) pre.
Proof.
  induction obs as [|o rest IH]; intros pre; [reflexivity |].
  cbn [feed_end feed map]. rewrite IH.
  destruct (feed rest _) as [|r rs]; [reflexivity |].
  cbn [map]. 
  set (d1 := Some (snd (track (sg_now o) (sg_row o) (sg_sn o) pre))).
  generalize (Some (snd r) :: map (fun r0 => Some (snd r0)) rs).
  intros l. clear. revert d1. destruct l as [|x l]; intros d1.
  - reflexivity.
  - cbn [List.last]. 
    assert (H : forall (l : list (option StockQuoteInfo)) x d d',
              List.last (x :: l) d = List.last (x :: l) d').
    { clear. induction l as [|y l IH]; intros x d d'; [reflexivity |].
      cbn [List.last] in *. apply IH. }
    destruct l as [|y l]; [reflexivity |]. apply H.
Qed.

Lemma rows_feed (c : string) (now : datetime) (fetch sns : gmap string Snapshot)
    (rows : list Row) :
  Forall (fun r => is_Some (fetch !! row_stock_code r) /\
                   sns !! row_stock_code r = fetch !! row_stock_code r) rows ->
  forall w,
  stock_code_info (snd (for_each (next_row now sns) rows w)) !! c =
    feed_end (flat_map (sightings_row c now fetch) rows) (stock_code_info w !! c).
Proof.
  induction 1 as [|r rows [[sn Hf] Hs] _ IH]; intros w; [reflexivity |].
  cbn [for_each flat_map]. rewrite feed_end_app. unfold bind.
  rewrite Hf in Hs.
  pose proof (next_row_record now sns r sn w Hs) as Hrec.
  destruct (next_row_present now sns r sn w Hs) as (d & _ & Heq).
  rewrite Heq in Hrec |- *. rewrite IH. f_equal.
  cbn [snd] in Hrec. rewrite Hrec. unfold sightings_row.
  destruct (decide (row_stock_code r = c)) as [<- | Hne].
  - rewrite lookup_insert_eq, Hf. reflexivity.
  - rewrite lookup_insert_ne by exact Hne. reflexivity.
Qed.

(** X15. A session and the tracker of one stock: when no fetch fails and the
    flag stays up, the record a session leaves for a stock is the record the
    tracker leaves after the stock's sightings, taken in the order of the
    cycles and of the rows within a cycle, starting from the record the
    stock had (or from none). *)
Theorem session_is_feed (c : string) (cycles : list Cycle) :
  Forall cycle_complete cycles ->
  forallb cy_running cycles = true ->
  forall w,
  stock_code_info (snd (start_loop cycles w)) !! c =
    List.last (map (fun r => Some (snd r))
                 (feed (sightings_of c cycles) (stock_code_info w !! c)))
      (stock_code_info w !! c).
Proof.
  intros Hc Hr w. rewrite <- feed_end_last. revert Hr w.
  induction Hc as [|cy rest Hcy _ IH]; intros Hr w; [reflexivity |].
  cbn [forallb] in Hr. apply andb_true_iff in Hr. destruct Hr as [Hr1 Hr2].
  cbn [start_loop]. rewrite Hr1. unfold TEST_MODE. rewrite orb_true_r. simpl.
  unfold bind, emit. rewrite next_for_each.
  set (w1 := mkWorld (stock_code_info w) (console w ++ [Refresh (cy_now cy)])).
  set (sns := get_snapshot_fast (cy_fetch cy)
                (map row_stock_code (candidates (cy_quotes cy)))).
  assert (Hrows : Forall (fun r => is_Some (cy_fetch cy !! row_stock_code r) /\
                                   sns !! row_stock_code r
                                     = cy_fetch cy !! row_stock_code r)
                    (candidates (cy_quotes cy))).
  { unfold cycle_complete in Hcy. rewrite Forall_forall in *. intros r Hin.
    split; [apply Hcy, Hin |]. apply sns_candidate, Hin. }
  pose proof (rows_feed c (cy_now cy) (cy_fetch cy) sns _ Hrows w1) as Hfeed.
  assert (Hok : fst (for_each (next_row (cy_now cy) sns)
                       (candidates (cy_quotes cy)) w1) = Ok tt).
  { apply for_each_present. rewrite Forall_forall in *. intros r Hin.
    destruct (Hrows r Hin) as [Hs Heq]. rewrite Heq. exact Hs. }
  destruct (for_each _ _ w1) as [[[]|e] w'] eqn:Hfe; simpl in Hok;
    [| discriminate].
  simpl in Hfeed. rewrite (IH Hr2 w'), Hfeed.
  unfold sightings_of. cbn [flat_map]. rewrite feed_end_app. reflexivity.
Qed.

(** Two cycles with both stocks: the record of 600000 is the one the
    tracker leaves after its two sightings. *)
Lemma session_is_feed_witness :
  stock_code_info
    (snd (start_loop [mkCycle true t_10h quotes_ab fetch_ab;
                      mkCycle true (t_10h + 3000000) quotes_ab fetch_ab]
            Strategy_init)) !! "600000"
  = Some (snd (track (t_10h + 3000000) row_a sn_limit
                 (Some (snd (track t_10h row_a sn_limit None))))).
Proof.
  rewrite (session_is_feed "600000").
  - vm_compute. reflexivity.
  - repeat constructor; vm_compute; eexists; reflexivity.
  - reflexivity.
Defined.

(** X16. The loop ends by its test exactly at the first cycle that finds
    the running flag down, provided no cycle before it crashed: the time of
    day never ends it, and the flag is looked at between cycles only. *)
Theorem stop_only_by_flag (cycles : list Cycle) :
  forall w,
  fst (start_loop cycles w) = Stopped <->
  exists l1 c l2, cycles = l1 ++ c :: l2 /\ cy_running c = false /\
                  fst (start_loop l1 w) = Pending.
Proof.
  induction cycles as [|c rest IH]; intros w.
  - simpl. split; [discriminate |].
    intros (l1 & c & l2 & H & _). destruct l1; discriminate.
  - cbn [start_loop]. unfold TEST_MODE. rewrite orb_true_r, andb_true_r.
    destruct (cy_running c) eqn:Hrun.
    + destruct (bind _ _ w) as [[[]|e] w'] eqn:Hb.
      * rewrite IH. split.
        -- intros (l1 & c' & l2 & -> & Hc' & Hp).
           exists (c :: l1), c', l2. repeat split; [exact Hc' |].
           cbn [start_loop]. unfold TEST_MODE.
           rewrite Hrun, orb_true_r. simpl. rewrite Hb. exact Hp.
        -- intros (l1 & c' & l2 & Heq & Hc' & Hp).
           destruct l1 as [|c0 l1]; simpl in Heq; injection Heq as <- ->.
           ++ congruence.
           ++ exists l1, c', l2. repeat split; [exact Hc' |].
              cbn [start_loop] in Hp. unfold TEST_MODE in Hp.
              rewrite Hrun, orb_true_r in Hp. simpl in Hp.
              rewrite Hb in Hp. exact Hp.
      * simpl. split; [discriminate |].
        intros (l1 & c' & l2 & Heq & Hc' & Hp).
        destruct l1 as [|c0 l1]; simpl in Heq; injection Heq as <- ->.
        -- congruence.
        -- cbn [start_loop] in Hp. unfold TEST_MODE in Hp.
           rewrite Hrun, orb_true_r in Hp. simpl in Hp.
           rewrite Hb in Hp. discriminate.
    + simpl. split; [| reflexivity].
      intros _. exists [], c, rest. repeat split; exact Hrun.
Qed.
